(** * QKart backend: the cart service (cart.service.js) and the user model

    A shallow embedding of the cart-and-checkout service over an explicit
    store, with the properties of its five operations, of the handlers of
    cart.controller.js that call them, and of the password validator of
    user.model.js.

    Conventions.
    - A collection is a finite map from its lookup key to documents; a query
      matches on the field of the document itself.
    - The service functions are [async]: every [await]ed call is a bind of the
      monad [M], a [throw] ends the call and leaves the store as it is at that
      point. A call that is not awaited gives the promise object itself.
    - A document handed in by reference and assigned to ([user] in
      [checkout]) lives in the state the function runs on.
    - Numbers ([walletMoney], [price], [quantity]) are JavaScript numbers that
      hold integers; on integers of magnitude below 2^53 the operations
      [+], [-], [*] and [>] are those of [Z].

    The service is modelled twice. First with the operators of [Z] and a
    store that serves every call; then, in [Faulty], with the operators as a
    parameter ([exact], or [binary64] with its rounding) and a store whose
    calls can be rejected, answered with [null], and applied or not. On a
    store that serves every call and with [exact] the second is the first. *)

From Stdlib Require Import ZArith.
From Stdlib Require Floats.PrimFloat Floats.FloatOps Floats.SpecFloat.
From Stdlib Require Numbers.Cyclic.Int63.Uint63.
From stdpp Require Import gmap strings list fin_maps.

Local Open Scope string_scope.
Local Open Scope list_scope.
Local Open Scope Z_scope.

(** ** http-status, ApiError, config *)

Module httpStatus.
Definition BAD_REQUEST : Z := 400.
Definition NOT_FOUND : Z := 404.
Definition INTERNAL_SERVER_ERROR : Z := 500.
Definition OK : Z := 200.
Definition CREATED : Z := 201.
Definition NO_CONTENT : Z := 204.
End httpStatus.

Record ApiError := mkApiError { statusCode : Z; message : string }.

(** The three values of config/config.js that the sources read. *)
Record Config := mkConfig {
  default_wallet_money : Z;
  default_payment_option : string;
  default_address : string
}.

(** ** Documents *)

Module Product.
(** Modelled from the spec: the Product schema is not among the sources;
    the attributes are the ones the spec lists for a catalogue product
    (identifier, name, category, rating, cost/price, image), the numeric
    one under the name [price], which is the field [checkout] reads. *)
Record t := mk {
  _id : string;
  name : string;
  category : string;
  rating : Z;
  price : Z;
  image : string
}.
End Product.

Module User.
(** userSchema of user.model.js, with the [_id] mongoose gives a document. *)
Record t := mk {
  _id : string;
  name : string;
  email : string;
  password : string;
  walletMoney : Z;
  address : string
}.

(** [user.walletMoney = v] *)
Definition set_walletMoney (v : Z) (user : t) : t :=
  mk (_id user) (name user) (email user) (password user) v (address user).
End User.

Module Cart.
(** Modelled from the spec: the Cart schema is not among the sources; a
    cart has an owner [email], the ordered [cartItems], each a product
    snapshot with a quantity, and a [paymentOption]. *)
Record item := mkItem { product : Product.t; quantity : Z }.

Record t := mk {
  email : string;
  cartItems : list item;
  paymentOption : string
}.

(** [cartItem.quantity = v] *)
Definition set_quantity (v : Z) (i : item) : item := mkItem (product i) v.

(** [cart.cartItems = items] *)
Definition set_cartItems (items : list item) (cart : t) : t :=
  mk (email cart) items (paymentOption cart).
End Cart.

(** ** JavaScript values that conditions are taken of *)

(** The result of calling an [async] function is a promise object, whatever
    the function returns. *)
Inductive JsValue :=
  | JsBool (b : bool)
  | JsPromise (settled : JsValue).

(** ToBoolean: every object, so every promise, is truthy. *)
Definition ToBoolean (v : JsValue) : bool :=
  match v with
  | JsBool b => b
  | JsPromise _ => true
  end.

(** The operator [!]. *)
Definition js_not (v : JsValue) : bool := negb (ToBoolean v).

(** What [await v] evaluates to. *)
Fixpoint js_await (v : JsValue) : JsValue :=
  match v with
  | JsPromise v' => js_await v'
  | JsBool b => JsBool b
  end.

(** [parseFloat(x)] of a number [x]: the number is printed and read back. *)
Definition parseFloat (x : Z) : Z := x.

(** ** Arrays *)

Section Arrays.
Context {A : Type}.

Fixpoint findIndex_from (i : Z) (f : A → bool) (l : list A) : Z :=
  match l with
  | [] => -1
  | x :: l' => if f x then i else findIndex_from (i + 1) f l'
  end.

(** [l.findIndex(f)]: the first position where [f] holds, or -1. *)
Definition findIndex (f : A → bool) (l : list A) : Z := findIndex_from 0 f l.

(** [l.find(f)]: the first element where [f] holds. The elements are
    objects, so what is found is a reference into the array: its position. *)
Fixpoint find_ref (f : A → bool) (l : list A) : option nat :=
  match l with
  | [] => None
  | x :: l' => if f x then Some O else S <$> find_ref f l'
  end.

(** [l.splice(start, deleteCount)], the array that is left. *)
Definition splice (start : Z) (deleteCount : nat) (l : list A) : list A :=
  let len := Z.of_nat (length l) in
  let s := if start <? 0 then Z.max (len + start) 0 else Z.min start len in
  take (Z.to_nat s) l ++ drop (Z.to_nat s + deleteCount) l.

(** [l.reduce(f, init)] *)
Definition reduce {B : Type} (f : B → A → B) (init : B) (l : list A) : B :=
  fold_left f l init.
End Arrays.

(** ** The store and the monad of the service *)

Record Db := mkDb {
  carts : gmap string Cart.t;       (* the Cart collection, by owner email *)
  products : gmap string Product.t; (* the Product collection, by _id *)
  users : gmap string User.t        (* the User collection, by _id *)
}.

Inductive Result (A : Type) :=
  | Ok (a : A)
  | Throw (e : ApiError).
Arguments Ok {A} a.
Arguments Throw {A} e.

(** A computation over a state [S] that returns or throws. *)
Definition M (S A : Type) : Type := S → Result A * S.

Definition ret {S A} (a : A) : M S A := λ s, (Ok a, s).

Definition throw {S A} (e : ApiError) : M S A := λ s, (Throw e, s).

Definition bind {S A B} (m : M S A) (k : A → M S B) : M S B :=
  λ s, match m s with
       | (Ok a, s') => k a s'
       | (Throw e, s') => (Throw e, s')
       end.

Definition gets {S A} (f : S → A) : M S A := λ s, (Ok (f s), s).

Definition modify {S} (f : S → S) : M S unit := λ s, (Ok tt, f s).

(** [await x ← m; k] is the bind at a call the source awaits; [sync x ← m; k]
    is the same bind at a step the source does not await (a field read, an
    assignment, a call whose promise is used as it is). *)
Notation "'await' x ← m ; k" := (bind m (λ x, k))
  (at level 10, x name, m at level 100, k at level 200,
   format "'[v' 'await'  x  ←  m ; '/' k ']'").

Notation "'sync' x ← m ; k" := (bind m (λ x, k))
  (at level 10, x name, m at level 100, k at level 200, only parsing).

(** *** Queries of the models *)

(** The cart a query by owner email finds. *)
Definition cart_of (email : string) (d : Db) : option Cart.t :=
  match carts d !! email with
  | Some c => if String.eqb (Cart.email c) email then Some c else None
  | None => None
  end.

(** The product a query by identifier finds. *)
Definition product_of (id : string) (d : Db) : option Product.t :=
  match products d !! id with
  | Some p => if String.eqb (Product._id p) id then Some p else None
  | None => None
  end.

(** [Cart.findOne({ email })] *)
Definition Cart_findOne (email : string) : M Db (option Cart.t) :=
  gets (cart_of email).

(** [Product.findById(id)] *)
Definition Product_findById (id : string) : M Db (option Product.t) :=
  gets (product_of id).

Definition put_cart (c : Cart.t) (db : Db) : Db :=
  mkDb (<[Cart.email c := c]> (carts db)) (products db) (users db).

Definition put_user (u : User.t) (db : Db) : Db :=
  mkDb (carts db) (products db) (<[User._id u := u]> (users db)).

(** [cart.save()]: the document replaces the stored one and is the result. *)
Definition Cart_save (c : Cart.t) : M Db (option Cart.t) :=
  sync _u ← modify (put_cart c);
  ret (Some c).

(** [Cart.create(doc)] *)
Definition Cart_create (c : Cart.t) : M Db (option Cart.t) := Cart_save c.

(** [user.save()]; the password is not modified by the service, so the
    pre-save hook leaves it alone. *)
Definition User_save (u : User.t) : M Db (option User.t) :=
  sync _u ← modify (put_user u);
  ret (Some u).

(** *** The document a call is given by reference *)

(** [this] holds the fields of the [user] document of the call; [db] is the
    store. *)
Record Session := mkSession { this : User.t; db : Db }.

(** A model call made from a function that holds a document. *)
Definition on_db {A} (m : M Db A) : M Session A :=
  λ s, match m (db s) with (r, d) => (r, mkSession (this s) d) end.

(** [user.f] read, or [user.f()] called *)
Definition user_get {A} (f : User.t → A) : M Session A :=
  gets (λ s, f (this s)).

(** [user.f = v], assigned *)
Definition user_set (f : User.t → User.t) : M Session unit :=
  modify (λ s, mkSession (f (this s)) (db s)).

(** [user.save()] on the document of the call *)
Definition user_save : M Session (option User.t) :=
  sync u ← user_get id;
  on_db (User_save u).

(** [Promise.all([p, q])], both started in this order and awaited. *)
Definition Promise_all {S A B} (p : M S A) (q : M S B) : M S (A * B) :=
  await a ← p;
  await b ← q;
  ret (a, b).

(** ** user.model.js and cart.service.js *)

Section Service.
Variable config : Config.

Import httpStatus.

(** [userSchema.methods.hasSetNonDefaultAddress]: an [async] function, so
    a call of it is a promise of the comparison. *)
Definition hasSetNonDefaultAddress (user : User.t) : JsValue :=
  JsPromise
    (JsBool (negb (String.eqb (User.address user) (default_address config)))).

(** [(item) => item.product._id.toString() === productId] *)
Definition is_product (productId : string) (item : Cart.item) : bool :=
  String.eqb (Product._id (Cart.product item)) productId.

Definition getCartByUser (user : User.t) : M Db Cart.t :=
  await cart ← Cart_findOne (User.email user);
  match cart with
  | None => throw (mkApiError NOT_FOUND "User does not have a cart")
  | Some cart => ret cart
  end.

Definition addProductToCart
    (user : User.t) (productId : string) (quantity : Z) : M Db Cart.t :=
  await cart ← Cart_findOne (User.email user);
  await product ← Product_findById productId;
  match product with
  | None =>
      throw (mkApiError BAD_REQUEST "Product doesn't exist in database")
  | Some product =>
    await cart ←
      match cart with
      | Some cart => ret (Some cart)
      | None =>
          Cart_create
            (Cart.mk (User.email user) [] (default_payment_option config))
      end;
    match cart with
    | None => throw (mkApiError INTERNAL_SERVER_ERROR "Failed to create cart")
    | Some cart =>
      let isProductInCart :=
        existsb (is_product productId) (Cart.cartItems cart) in
      if isProductInCart then
        throw (mkApiError BAD_REQUEST
          "Product already in cart. Use the cart sidebar to update or remove product from cart")
      else
        let cart :=
          Cart.set_cartItems
            (Cart.cartItems cart ++ [Cart.mkItem product quantity]) cart in
        await updatedCart ← Cart_save cart;
        match updatedCart with
        | None =>
            throw (mkApiError INTERNAL_SERVER_ERROR "Failed to update cart")
        | Some updatedCart => ret updatedCart
        end
    end
  end.

(** The result is the cart, or [None] for the [null] that says the item
    was removed. *)
Definition updateProductInCart
    (user : User.t) (productId : string) (quantity : Z)
    : M Db (option Cart.t) :=
  await cart ← Cart_findOne (User.email user);
  match cart with
  | None =>
      throw (mkApiError BAD_REQUEST
        "User does not have a cart. Use POST to create cart and add a product")
  | Some cart =>
    await product ← Product_findById productId;
    match product with
    | None =>
        throw (mkApiError BAD_REQUEST "Product doesn't exist in database")
    | Some _ =>
      match find_ref (is_product productId) (Cart.cartItems cart) with
      | None => throw (mkApiError BAD_REQUEST "Product not in cart")
      | Some cartItem =>
        if quantity >? 0 then
          let cart :=
            Cart.set_cartItems
              (alter (Cart.set_quantity quantity) cartItem
                 (Cart.cartItems cart)) cart in
          await _u ← Cart_save cart;
          ret (Some cart)
        else
          let cart :=
            Cart.set_cartItems
              (List.filter (λ item, negb (is_product productId item))
                 (Cart.cartItems cart)) cart in
          await _u ← Cart_save cart;
          ret None
      end
    end
  end.

Definition deleteProductFromCart
    (user : User.t) (productId : string) : M Db Cart.t :=
  await cart ← Cart_findOne (User.email user);
  match cart with
  | None => throw (mkApiError BAD_REQUEST "User does not have a cart")
  | Some cart =>
    let productIndex :=
      findIndex (is_product productId) (Cart.cartItems cart) in
    if productIndex =? -1 then
      throw (mkApiError BAD_REQUEST "Product not in cart")
    else
      let cart :=
        Cart.set_cartItems (splice productIndex 1 (Cart.cartItems cart))
          cart in
      await _u ← Cart_save cart;
      ret cart
  end.

(** [(total, item) => total + item.product.price * item.quantity] *)
Definition add_item_cost (total : Z) (item : Cart.item) : Z :=
  total + Product.price (Cart.product item) * Cart.quantity item.

(** [cart.cartItems.reduce(..., 0)] with the function above *)
Definition cart_total (items : list Cart.item) : Z :=
  reduce add_item_cost 0 items.

(** The body of [checkout(user)], on the session of [user]. *)
Definition checkout_async : M Session Cart.t :=
  sync email ← user_get User.email;
  await cart ← on_db (Cart_findOne email);
  match cart with
  | None => throw (mkApiError NOT_FOUND "User does not have a cart")
  | Some cart =>
    if (length (Cart.cartItems cart) =? 0)%nat then
      throw (mkApiError BAD_REQUEST "Cart is empty")
    else
      sync promise ← user_get hasSetNonDefaultAddress;
      if js_not promise then
        throw (mkApiError BAD_REQUEST "Address not set")
      else
        let cartTotal := cart_total (Cart.cartItems cart) in
        sync walletMoney ← user_get User.walletMoney;
        let walletBalance := parseFloat walletMoney in
        let totalCost := parseFloat cartTotal in
        if totalCost >? walletBalance then
          throw (mkApiError BAD_REQUEST "Wallet balance is insufficient")
        else
          sync _u ← user_set (User.set_walletMoney (walletBalance - totalCost));
          let cart := Cart.set_cartItems [] cart in
          await _u ← Promise_all user_save (on_db (Cart_save cart));
          ret cart
  end.

(** [checkout(user)] on a store: the result, the [user] document and the
    store after the call. *)
Definition checkout (user : User.t) (d : Db) : Result Cart.t * Session :=
  checkout_async (mkSession user d).
End Service.

(** ** What the properties are stated with *)

(** [x] is the first element of [l] where [f] holds, between [l1] and [l2]. *)
Definition first_match {A} (f : A → bool) (l l1 : list A) (x : A) (l2 : list A)
    : Prop :=
  l = l1 ++ x :: l2 ∧ existsb f l1 = false ∧ f x = true.

(** The items of the cart of [email], none when there is no cart. *)
Definition items_of (email : string) (d : Db) : list Cart.item :=
  match cart_of email d with
  | Some c => Cart.cartItems c
  | None => []
  end.

(** The product identifiers of the items of a cart. *)
Definition ids (items : list Cart.item) : list string :=
  map (λ item, Product._id (Cart.product item)) items.

(** The invariant of the data model: no product twice in a cart. *)
Definition unique_products (items : list Cart.item) : Prop := NoDup (ids items).


(** *** The carts the service can build *)

(** A call of one of the four operations that change carts. *)
Inductive request :=
  | AddProduct (user : User.t) (productId : string) (quantity : Z)
  | UpdateProduct (user : User.t) (productId : string) (quantity : Z)
  | DeleteProduct (user : User.t) (productId : string)
  | Checkout (user : User.t).

(** The store after a call, whether it returned or threw. *)
Definition handle (config : Config) (r : request) (d : Db) : Db :=
  match r with
  | AddProduct user productId quantity =>
      (addProductToCart config user productId quantity d).2
  | UpdateProduct user productId quantity =>
      (updateProductInCart user productId quantity d).2
  | DeleteProduct user productId => (deleteProductFromCart user productId d).2
  | Checkout user => db (checkout config user d).2
  end.

(** The stores reached from one without carts by calls that [allowed]
    admits. *)
Inductive reachable_by (config : Config) (allowed : request → Prop)
    : Db → Prop :=
  | reachable_start catalogue accounts :
      reachable_by config allowed (mkDb ∅ catalogue accounts)
  | reachable_handle r d :
      allowed r →
      reachable_by config allowed d →
      reachable_by config allowed (handle config r d).

Definition reachable (config : Config) : Db → Prop :=
  reachable_by config (λ _, True).

(** A call that does not add a product with a quantity of 0 or below. *)
Definition positive_add (r : request) : Prop :=
  match r with
  | AddProduct _ _ quantity => 0 < quantity
  | _ => True
  end.

(** Every stored cart has items that satisfy [P]. *)
Definition every_cart (P : list Cart.item → Prop) (d : Db) : Prop :=
  ∀ e c, carts d !! e = Some c → P (Cart.cartItems c).

Definition positive_quantities (items : list Cart.item) : Prop :=
  Forall (λ item, 0 < Cart.quantity item) items.

(** How the call [r] on the store [d] changes the items of the cart it
    saves. *)
Inductive items_change (d : Db) : request → list Cart.item → list Cart.item → Prop :=
  | change_add user productId quantity product old :
      product_of productId d = Some product →
      existsb (is_product productId) old = false →
      items_change d (AddProduct user productId quantity)
        old (old ++ [Cart.mkItem product quantity])
  | change_set user productId quantity l1 item l2 :
      0 < quantity →
      items_change d (UpdateProduct user productId quantity)
        (l1 ++ item :: l2) (l1 ++ Cart.set_quantity quantity item :: l2)
  | change_filter user productId quantity old :
      items_change d (UpdateProduct user productId quantity)
        old (List.filter (λ item, negb (is_product productId item)) old)
  | change_delete user productId l1 item l2 :
      items_change d (DeleteProduct user productId)
        (l1 ++ item :: l2) (l1 ++ l2)
  | change_checkout user old :
      items_change d (Checkout user) old [].

(** *** A shop to compute on *)

Definition shop_config : Config :=
  mkConfig 500 "PAYMENT_OPTION_DEFAULT" "ADDRESS_NOT_SET".

Definition ball : Product.t := Product.mk "p1" "ball" "Sports" 5 20 "google.com".
Definition bat : Product.t := Product.mk "p2" "bat" "Sports" 4 15 "google.com".

Definition shop_catalogue : gmap string Product.t :=
  <["p1" := ball]> (<["p2" := bat]> ∅).

(** A user with the given wallet and address. *)
Definition shopper (walletMoney : Z) (address : string) : User.t :=
  User.mk "u1" "crio-user" "crio-user@gmail.com" "password1" walletMoney address.

(** The cart of the examples: two balls at 20 and one bat at 15. *)
Definition shop_cart : Cart.t :=
  Cart.mk "crio-user@gmail.com" [Cart.mkItem ball 2; Cart.mkItem bat 1]
    "PAYMENT_OPTION_DEFAULT".

Definition shop_cart_empty : Cart.t :=
  Cart.mk "crio-user@gmail.com" [] "PAYMENT_OPTION_DEFAULT".

(** The cart of the examples with three balls instead of two. *)
Definition shop_cart_three : Cart.t :=
  Cart.mk "crio-user@gmail.com" [Cart.mkItem ball 3; Cart.mkItem bat 1]
    "PAYMENT_OPTION_DEFAULT".

(** The cart the visitor gets with four bats. *)
Definition visitor_cart : Cart.t :=
  Cart.mk "visitor@gmail.com" [Cart.mkItem bat 4] "PAYMENT_OPTION_DEFAULT".

(** Another user, without a cart. *)
Definition visitor : User.t :=
  User.mk "u2" "visitor" "visitor@gmail.com" "password2" 10 "3 Mill Lane".

(** The shop before any cart exists. *)
Definition shop_open : Db := mkDb ∅ shop_catalogue ∅.

(** The shop with the cart of the examples. *)
Definition shop_busy : Db :=
  mkDb (<["crio-user@gmail.com" := shop_cart]> ∅) shop_catalogue ∅.

(** The cart of the examples after the catalogue lost its products. *)
Definition shop_cleared : Db :=
  mkDb (<["crio-user@gmail.com" := shop_cart]> ∅) ∅ ∅.

(** ** user.model.js: the password validator *)

Module userSchema.
(** [/\d/] on one character *)
Definition is_digit (c : Ascii.ascii) : bool :=
  let n := Ascii.nat_of_ascii c in (48 <=? n)%nat && (n <=? 57)%nat.

(** [/[a-zA-Z]/] on one character *)
Definition is_letter (c : Ascii.ascii) : bool :=
  let n := Ascii.nat_of_ascii c in
  ((97 <=? n)%nat && (n <=? 122)%nat) || ((65 <=? n)%nat && (n <=? 90)%nat).

(** [value.match(re)] is not [null], for a pattern [re] of one character
    class: some character of [value] is in the class. *)
Fixpoint matches (class : Ascii.ascii → bool) (value : string) : bool :=
  match value with
  | EmptyString => false
  | String c rest => class c || matches class rest
  end.

(** [validate(value)] of [password]: the message of the [Error] it throws,
    or [None] when it returns. *)
Definition password_validate (value : string) : option string :=
  if negb (matches is_digit value) || negb (matches is_letter value) then
    Some "Password must contain at least one letter and one number"
  else None.
End userSchema.

(** ** cart.controller.js *)

(** ToBoolean of a string: only the empty string is falsy. *)
Definition string_ToBoolean (s : string) : bool := negb (String.eqb s "").

(** ToBoolean of a document: an object is truthy. *)
Definition document_ToBoolean {A} (doc : A) : bool := true.

(** What the function of a handler can throw: an [ApiError] of the service
    or a plain [Error], which has a message only. *)
Inductive Thrown :=
  | ThrownApiError (e : ApiError)
  | ThrownError (text : string).

(** [error.message] *)
Definition thrown_message (error : Thrown) : string :=
  match error with
  | ThrownApiError e => message e
  | ThrownError text => text
  end.

(** What [res.send] or [res.json] is given. *)
Inductive Body :=
  | NoBody
  | CartBody (cart : Cart.t)
  | MessageBody (text : string).

Record Response := mkResponse { status : Z; body : Body }.

(** How the async function of a handler ends: it sent a response, or it
    threw, which is what the wrapper [catchAsync] (not among the sources) is
    left with. *)
Inductive Handled :=
  | Sent (r : Response)
  | Rejected (error : Thrown).

Module cartController.
Section Handlers.
Variable config : Config.

(** The field [cost] of a product, which [checkout] below reads; the
    Product schema is not among the sources, so it is a parameter. *)
Variable cost : Product.t → Z.

Import httpStatus.

(** [getCart], with [req.user] *)
Definition getCart (user : User.t) (d : Db) : Handled * Db :=
  match getCartByUser user d with
  | (Ok cart, d) => (Sent (mkResponse OK (CartBody cart)), d)
  | (Throw e, d) => (Rejected (ThrownApiError e), d)
  end.

(** [addProductToCart], with [req.user], [req.body.productId] and
    [req.body.quantity]; the call in the body is the one of the service. *)
Definition addProductToCart
    (user : User.t) (productId : string) (quantity : Z) (d : Db)
    : Handled * Db :=
  match addProductToCart config user productId quantity d with
  | (Ok cart, d) => (Sent (mkResponse CREATED (CartBody cart)), d)
  | (Throw e, d) => (Rejected (ThrownApiError e), d)
  end.

(** [updateCart] *)
Definition updateCart
    (user : User.t) (productId : string) (quantity : Z) (d : Db)
    : Handled * Db :=
  match updateProductInCart user productId quantity d with
  | (Ok cart, d) =>
      match cart with
      | None => (Sent (mkResponse NO_CONTENT NoBody), d)
      | Some cart => (Sent (mkResponse OK (CartBody cart)), d)
      end
  | (Throw e, d) => (Rejected (ThrownApiError e), d)
  end.

(** [(total, item) => total + item.product.cost * item.quantity] *)
Definition add_item_cost (total : Z) (item : Cart.item) : Z :=
  total + cost (Cart.product item) * Cart.quantity item.

(** The [try] block of [checkout], on the session of [req.user]. *)
Definition checkout_try (s : Session) : Handled * Session :=
  match on_db (getCartByUser (this s)) s with
  | (Throw e, s) => (Rejected (ThrownApiError e), s)
  | (Ok cart, s) =>
    if negb (document_ToBoolean cart)
       || (length (Cart.cartItems cart) =? 0)%nat then
      (Rejected (ThrownError "Cart is empty"), s)
    else if negb (string_ToBoolean (User.address (this s))) then
      (Rejected (ThrownError "Address not set"), s)
    else
      let cartTotal := reduce add_item_cost 0 (Cart.cartItems cart) in
      if User.walletMoney (this s) <? cartTotal then
        (Rejected (ThrownError "Insufficient wallet balance"), s)
      else
        match checkout_async config s with
        | (Throw e, s) => (Rejected (ThrownApiError e), s)
        | (Ok updatedUser, s) =>
            if negb (document_ToBoolean updatedUser) then
              (Rejected (ThrownError "Checkout failed"), s)
            else (Sent (mkResponse NO_CONTENT NoBody), s)
        end
  end.

(** The [catch] block of [checkout]: three messages are answered, any other
    error is thrown again. *)
Definition checkout_catch (error : Thrown) (s : Session) : Handled * Session :=
  if String.eqb (thrown_message error) "Cart is empty"
     || String.eqb (thrown_message error) "Address not set"
     || String.eqb (thrown_message error) "Insufficient wallet balance" then
    (Sent (mkResponse BAD_REQUEST (MessageBody (thrown_message error))), s)
  else (Rejected error, s).

(** [checkout], with [req.user] *)
Definition checkout (user : User.t) (d : Db) : Handled * Session :=
  match checkout_try (mkSession user d) with
  | (Rejected error, s) => checkout_catch error s
  | (Sent r, s) => (Sent r, s)
  end.
End Handlers.
End cartController.

(** ** What the further properties are stated with *)

(** The user a call is made for. *)
Definition request_user (r : request) : User.t :=
  match r with
  | AddProduct user _ _ => user
  | UpdateProduct user _ _ => user
  | DeleteProduct user _ => user
  | Checkout user => user
  end.

(** The error of a result that is a throw. *)
Definition thrown {A} (result : Result A) : option ApiError :=
  match result with
  | Throw e => Some e
  | Ok _ => None
  end.

(** The error a call ends with, if it throws. *)
Definition request_error (config : Config) (r : request) (d : Db)
    : option ApiError :=
  match r with
  | AddProduct user productId quantity =>
      thrown (addProductToCart config user productId quantity d).1
  | UpdateProduct user productId quantity =>
      thrown (updateProductInCart user productId quantity d).1
  | DeleteProduct user productId =>
      thrown (deleteProductFromCart user productId d).1
  | Checkout user => thrown (checkout config user d).1
  end.

(** The cart a call returns, if it returns one. *)
Definition request_cart (config : Config) (r : request) (d : Db)
    : option Cart.t :=
  match r with
  | AddProduct user productId quantity =>
      match (addProductToCart config user productId quantity d).1 with
      | Ok cart => Some cart
      | Throw _ => None
      end
  | UpdateProduct user productId quantity =>
      match (updateProductInCart user productId quantity d).1 with
      | Ok cart => cart
      | Throw _ => None
      end
  | DeleteProduct user productId =>
      match (deleteProductFromCart user productId d).1 with
      | Ok cart => Some cart
      | Throw _ => None
      end
  | Checkout user =>
      match (checkout config user d).1 with
      | Ok cart => Some cart
      | Throw _ => None
      end
  end.

(** The store after a list of calls, made one after the other. *)
Definition handle_all (config : Config) (rs : list request) (d : Db) : Db :=
  foldl (λ d r, handle config r d) d rs.

(** Every item carries the product the catalogue has under its identifier. *)
Definition snapshots_of (catalogue : gmap string Product.t)
    (items : list Cart.item) : Prop :=
  Forall
    (λ item,
       catalogue !! Product._id (Cart.product item) = Some (Cart.product item))
    items.

(** ** Numbers as the engine has them: binary64, on integers *)

(** The integer [n] rounded to the nearest binary64 number, ties to the even
    significand; every integer up to 2^53 in magnitude is a binary64 number.
    (Finite numbers only: magnitudes stay below 2^1024.) *)
Definition round64 (n : Z) : Z :=
  let a := Z.abs n in
  if a <? 2 ^ 53 then n
  else
    let e := Z.log2 a - 52 in
    let q := a / 2 ^ e in
    let r := a mod 2 ^ e in
    let half := 2 ^ (e - 1) in
    let q' := if (half <? r) || ((r =? half) && Z.odd q) then q + 1 else q in
    Z.sgn n * (q' * 2 ^ e).

(** The operators [+], [-] and [*] of the source on numbers. *)
Record Arith := mkArith {
  num_add : Z → Z → Z;
  num_sub : Z → Z → Z;
  num_mul : Z → Z → Z
}.


(** The operators of binary64 on integers: the exact result, rounded. *)
Definition binary64 : Arith :=
  mkArith (λ x y, round64 (x + y)) (λ x y, round64 (x - y))
    (λ x y, round64 (x * y)).

(** The primitive binary64 number for an integer below 2^63 in magnitude,
    and the integer that a primitive binary64 number holds (its integer part,
    0 for what is not finite). They tie [round64] to the hardware numbers. *)
Definition binary64_of (n : Z) : PrimFloat.float :=
  if n <? 0 then PrimFloat.opp (PrimFloat.of_uint63 (Uint63.of_Z (- n)))
  else PrimFloat.of_uint63 (Uint63.of_Z n).

Definition binary64_to_Z (x : PrimFloat.float) : Z :=
  match FloatOps.Prim2SF x with
  | SpecFloat.S754_finite sign m e =>
      (if sign then -1 else 1)
      * (if e <? 0 then Z.pos m / 2 ^ (- e) else Z.pos m * 2 ^ e)
  | _ => 0
  end.


(** ** The service on a store that can fail *)

Module Faulty.
(** How the promise of a call of the store settles. *)
Inductive Settles :=
  | Resolves
  | ResolvesNull
  | Rejects (text : string).

(** What the store does with one call: whether a write is applied, and how
    the promise settles. The two are independent: a write can be applied and
    its promise rejected all the same. *)
Record Reply := mkReply { applied : bool; settles : Settles }.

Definition served : Reply := mkReply true Resolves.

(** The collections, and the replies the store will give to the calls to
    come, in the order of the calls; a call beyond the list is served. *)
Record Store := mkStore { data : Db; replies : list Reply }.

Inductive Settled (A : Type) :=
  | Fulfilled (a : A)
  | Failed (error : Thrown).
Arguments Fulfilled {A} a.
Arguments Failed {A} error.

(** A computation over a state [S] that returns, or throws an [ApiError] or
    an [Error]. *)
Definition Async (S A : Type) : Type := S → Settled A * S.

Definition ret {S A} (a : A) : Async S A := λ s, (Fulfilled a, s).

Definition throw {S A} (error : Thrown) : Async S A := λ s, (Failed error, s).

Definition bind {S A B} (m : Async S A) (k : A → Async S B) : Async S B :=
  λ s, match m s with
       | (Fulfilled a, s') => k a s'
       | (Failed error, s') => (Failed error, s')
       end.

Definition gets {S A} (f : S → A) : Async S A := λ s, (Fulfilled (f s), s).

Definition modify {S} (f : S → S) : Async S unit := λ s, (Fulfilled tt, f s).

Notation "'await' x ⇐ m ; k" := (bind m (λ x, k))
  (at level 10, x name, m at level 100, k at level 200, only parsing).

Notation "'sync' x ⇐ m ; k" := (bind m (λ x, k))
  (at level 10, x name, m at level 100, k at level 200, only parsing).

(** The reply of the store to the call being made. *)
Definition next_reply : Async Store Reply :=
  λ s, match replies s with
       | [] => (Fulfilled served, s)
       | r :: rest => (Fulfilled r, mkStore (data s) rest)
       end.

(** A query: it settles with what the collections hold, or rejects. *)
Definition read {A} (f : Db → A) : Async Store A :=
  sync r ⇐ next_reply;
  match settles r with
  | Rejects text => throw (ThrownError text)
  | _ => gets (λ s, f (data s))
  end.

(** A write of a document: applied or not, and settling with the document,
    with [null], or with a rejection. *)
Definition write {A} (f : Db → Db) (doc : A) : Async Store (option A) :=
  sync r ⇐ next_reply;
  sync _u ⇐ modify
              (λ s, if applied r then mkStore (f (data s)) (replies s) else s);
  match settles r with
  | Resolves => ret (Some doc)
  | ResolvesNull => ret None
  | Rejects text => throw (ThrownError text)
  end.

Definition Cart_findOne (email : string) : Async Store (option Cart.t) :=
  read (cart_of email).

Definition Product_findById (id : string) : Async Store (option Product.t) :=
  read (product_of id).

Definition Cart_save (c : Cart.t) : Async Store (option Cart.t) :=
  write (put_cart c) c.

Definition Cart_create (c : Cart.t) : Async Store (option Cart.t) :=
  write (put_cart c) c.

Definition User_save (u : User.t) : Async Store (option User.t) :=
  write (put_user u) u.

(** The [user] document of a call and the store. *)
Record Session := mkSession { this : User.t; store : Store }.

Definition on_store {A} (m : Async Store A) : Async Session A :=
  λ s, match m (store s) with (r, d) => (r, mkSession (this s) d) end.

Definition user_get {A} (f : User.t → A) : Async Session A :=
  gets (λ s, f (this s)).

Definition user_set (f : User.t → User.t) : Async Session unit :=
  modify (λ s, mkSession (f (this s)) (store s)).

Definition user_save : Async Session (option User.t) :=
  sync u ⇐ user_get id;
  on_store (User_save u).

(** [Promise.all([p, q])]: both calls are made before anything is awaited,
    so the second one runs whether the first one is rejected or not; the
    whole is rejected when one of them is. *)
Definition Promise_all {S A B} (p : Async S A) (q : Async S B)
    : Async S (A * B) :=
  λ s, match p s with
       | (Fulfilled a, s) =>
           match q s with
           | (Fulfilled b, s) => (Fulfilled (a, b), s)
           | (Failed error, s) => (Failed error, s)
           end
       | (Failed error, s) =>
           match q s with
           | (_, s) => (Failed error, s)
           end
       end.

Section Service.
Variable N : Arith.
Variable config : Config.

Import httpStatus.

Definition api (statusCode : Z) (text : string) : Thrown :=
  ThrownApiError (mkApiError statusCode text).

Definition getCartByUser (user : User.t) : Async Store Cart.t :=
  await cart ⇐ Cart_findOne (User.email user);
  match cart with
  | None => throw (api NOT_FOUND "User does not have a cart")
  | Some cart => ret cart
  end.

Definition addProductToCart
    (user : User.t) (productId : string) (quantity : Z)
    : Async Store Cart.t :=
  await cart ⇐ Cart_findOne (User.email user);
  await product ⇐ Product_findById productId;
  match product with
  | None => throw (api BAD_REQUEST "Product doesn't exist in database")
  | Some product =>
    await cart ⇐
      match cart with
      | Some cart => ret (Some cart)
      | None =>
          Cart_create
            (Cart.mk (User.email user) [] (default_payment_option config))
      end;
    match cart with
    | None => throw (api INTERNAL_SERVER_ERROR "Failed to create cart")
    | Some cart =>
      let isProductInCart :=
        existsb (is_product productId) (Cart.cartItems cart) in
      if isProductInCart then
        throw (api BAD_REQUEST
          "Product already in cart. Use the cart sidebar to update or remove product from cart")
      else
        let cart :=
          Cart.set_cartItems
            (Cart.cartItems cart ++ [Cart.mkItem product quantity]) cart in
        await updatedCart ⇐ Cart_save cart;
        match updatedCart with
        | None => throw (api INTERNAL_SERVER_ERROR "Failed to update cart")
        | Some updatedCart => ret updatedCart
        end
    end
  end.

Definition updateProductInCart
    (user : User.t) (productId : string) (quantity : Z)
    : Async Store (option Cart.t) :=
  await cart ⇐ Cart_findOne (User.email user);
  match cart with
  | None =>
      throw (api BAD_REQUEST
        "User does not have a cart. Use POST to create cart and add a product")
  | Some cart =>
    await product ⇐ Product_findById productId;
    match product with
    | None => throw (api BAD_REQUEST "Product doesn't exist in database")
    | Some _ =>
      match find_ref (is_product productId) (Cart.cartItems cart) with
      | None => throw (api BAD_REQUEST "Product not in cart")
      | Some cartItem =>
        if quantity >? 0 then
          let cart :=
            Cart.set_cartItems
              (alter (Cart.set_quantity quantity) cartItem
                 (Cart.cartItems cart)) cart in
          await _u ⇐ Cart_save cart;
          ret (Some cart)
        else
          let cart :=
            Cart.set_cartItems
              (List.filter (λ item, negb (is_product productId item))
                 (Cart.cartItems cart)) cart in
          await _u ⇐ Cart_save cart;
          ret None
      end
    end
  end.

Definition deleteProductFromCart
    (user : User.t) (productId : string) : Async Store Cart.t :=
  await cart ⇐ Cart_findOne (User.email user);
  match cart with
  | None => throw (api BAD_REQUEST "User does not have a cart")
  | Some cart =>
    let productIndex :=
      findIndex (is_product productId) (Cart.cartItems cart) in
    if productIndex =? -1 then
      throw (api BAD_REQUEST "Product not in cart")
    else
      let cart :=
        Cart.set_cartItems (splice productIndex 1 (Cart.cartItems cart))
          cart in
      await _u ⇐ Cart_save cart;
      ret cart
  end.

(** [(total, item) => total + item.product.price * item.quantity] *)
Definition add_item_cost (total : Z) (item : Cart.item) : Z :=
  num_add N total
    (num_mul N (Product.price (Cart.product item)) (Cart.quantity item)).

Definition cart_total (items : list Cart.item) : Z :=
  reduce add_item_cost 0 items.

Definition checkout_async : Async Session Cart.t :=
  sync email ⇐ user_get User.email;
  await cart ⇐ on_store (Cart_findOne email);
  match cart with
  | None => throw (api NOT_FOUND "User does not have a cart")
  | Some cart =>
    if (length (Cart.cartItems cart) =? 0)%nat then
      throw (api BAD_REQUEST "Cart is empty")
    else
      sync promise ⇐ user_get (hasSetNonDefaultAddress config);
      if js_not promise then
        throw (api BAD_REQUEST "Address not set")
      else
        let cartTotal := cart_total (Cart.cartItems cart) in
        sync walletMoney ⇐ user_get User.walletMoney;
        let walletBalance := parseFloat walletMoney in
        let totalCost := parseFloat cartTotal in
        if totalCost >? walletBalance then
          throw (api BAD_REQUEST "Wallet balance is insufficient")
        else
          sync _u ⇐ user_set
                      (User.set_walletMoney
                         (num_sub N walletBalance totalCost));
          let cart := Cart.set_cartItems [] cart in
          await _u ⇐ Promise_all user_save (on_store (Cart_save cart));
          ret cart
  end.

Definition checkout (user : User.t) (s : Store) : Settled Cart.t * Session :=
  checkout_async (mkSession user s).

(** The error a call of one of the four operations throws, if it throws, and
    the user document and the store after the call. *)
Definition serve (r : request) (s : Store) : option Thrown * Session :=
  let only_thrown {A} (settled : Settled A) : option Thrown :=
    match settled with
    | Failed error => Some error
    | Fulfilled _ => None
    end in
  match r with
  | AddProduct user productId quantity =>
      match addProductToCart user productId quantity s with
      | (settled, s) => (only_thrown settled, mkSession user s)
      end
  | UpdateProduct user productId quantity =>
      match updateProductInCart user productId quantity s with
      | (settled, s) => (only_thrown settled, mkSession user s)
      end
  | DeleteProduct user productId =>
      match deleteProductFromCart user productId s with
      | (settled, s) => (only_thrown settled, mkSession user s)
      end
  | Checkout user =>
      match checkout user s with
      | (settled, s) => (only_thrown settled, s)
      end
  end.

(** *** The handler [checkout] of cart.controller.js on this service *)

Variable cost : Product.t → Z.

Definition controller_add_item_cost (total : Z) (item : Cart.item) : Z :=
  num_add N total (num_mul N (cost (Cart.product item)) (Cart.quantity item)).

Definition controller_checkout_try (s : Session) : Handled * Session :=
  match on_store (getCartByUser (this s)) s with
  | (Failed error, s) => (Rejected error, s)
  | (Fulfilled cart, s) =>
    if negb (document_ToBoolean cart)
       || (length (Cart.cartItems cart) =? 0)%nat then
      (Rejected (ThrownError "Cart is empty"), s)
    else if negb (string_ToBoolean (User.address (this s))) then
      (Rejected (ThrownError "Address not set"), s)
    else
      let cartTotal :=
        reduce controller_add_item_cost 0 (Cart.cartItems cart) in
      if User.walletMoney (this s) <? cartTotal then
        (Rejected (ThrownError "Insufficient wallet balance"), s)
      else
        match checkout_async s with
        | (Failed error, s) => (Rejected error, s)
        | (Fulfilled updatedUser, s) =>
            if negb (document_ToBoolean updatedUser) then
              (Rejected (ThrownError "Checkout failed"), s)
            else (Sent (mkResponse NO_CONTENT NoBody), s)
        end
  end.

Definition controller_checkout_catch (error : Thrown) (s : Session)
    : Handled * Session :=
  if String.eqb (thrown_message error) "Cart is empty"
     || String.eqb (thrown_message error) "Address not set"
     || String.eqb (thrown_message error) "Insufficient wallet balance" then
    (Sent (mkResponse BAD_REQUEST (MessageBody (thrown_message error))), s)
  else (Rejected error, s).

Definition controller_checkout (user : User.t) (s : Store)
    : Handled * Session :=
  match controller_checkout_try (mkSession user s) with
  | (Rejected error, s) => controller_checkout_catch error s
  | (Sent r, s) => (Sent r, s)
  end.
End Service.

End Faulty.

(** *** Numbers beyond 2^53 *)




(** * Properties *)

(** ** Arrays *)

Section ArrayFacts.
Context {A : Type}.
Implicit Types (f : A → bool) (l : list A).

Lemma existsb_first_match f l :
  existsb f l = true → ∃ l1 x l2, first_match f l l1 x l2.
Proof.
  induction l as [|y l IH]; simpl; [discriminate|].
  destruct (f y) eqn:Hy; simpl.
  - intros _. exists [], y, l. by repeat split.
  - intros H. destruct (IH H) as (l1 & x & l2 & -> & Hl1 & Hx).
    exists (y :: l1), x, l2. repeat split; [|done].
    simpl. by rewrite Hy.
Qed.

Lemma first_match_existsb f l l1 x l2 :
  first_match f l l1 x l2 → existsb f l = true.
Proof.
  intros (-> & _ & Hx). rewrite existsb_app. simpl. rewrite Hx.
  by rewrite orb_true_r.
Qed.

Lemma findIndex_from_none i f l :
  existsb f l = false → findIndex_from i f l = -1.
Proof.
  revert i. induction l as [|y l IH]; intros i; simpl; [done|].
  destruct (f y); simpl; [discriminate|]. apply IH.
Qed.

Lemma findIndex_from_first i f l l1 x l2 :
  first_match f l l1 x l2 →
  findIndex_from i f l = i + Z.of_nat (length l1).
Proof.
  intros (-> & Hl1 & Hx). revert i Hl1.
  induction l1 as [|y l1 IH]; intros i; simpl.
  - intros _. rewrite Hx. lia.
  - destruct (f y); simpl; [discriminate|].
    intros H. rewrite (IH _ H). lia.
Qed.

Lemma findIndex_none f l : existsb f l = false → findIndex f l = -1.
Proof. apply findIndex_from_none. Qed.

Lemma findIndex_first f l l1 x l2 :
  first_match f l l1 x l2 → findIndex f l = Z.of_nat (length l1).
Proof. intros H. unfold findIndex. by rewrite (findIndex_from_first _ _ _ _ _ _ H). Qed.

Lemma find_ref_none f l : existsb f l = false → find_ref f l = None.
Proof.
  induction l as [|y l IH]; simpl; [done|].
  destruct (f y); simpl; [discriminate|].
  intros H. by rewrite IH.
Qed.

Lemma find_ref_first f l l1 x l2 :
  first_match f l l1 x l2 → find_ref f l = Some (length l1).
Proof.
  intros (-> & Hl1 & Hx). revert Hl1.
  induction l1 as [|y l1 IH]; simpl.
  - by rewrite Hx.
  - destruct (f y); simpl; [discriminate|].
    intros H. by rewrite IH.
Qed.

Lemma splice_one (l1 : list A) x l2 :
  splice (Z.of_nat (length l1)) 1 (l1 ++ x :: l2) = l1 ++ l2.
Proof.
  unfold splice.
  assert ((Z.of_nat (length l1) <? 0) = false) as -> by (apply Z.ltb_ge; lia).
  rewrite length_app. simpl.
  rewrite Z.min_l by lia. rewrite Nat2Z.id.
  rewrite take_app_length. by rewrite drop_app_add.
Qed.

Lemma alter_middle (g : A → A) (l1 : list A) x l2 :
  alter g (length l1) (l1 ++ x :: l2) = l1 ++ g x :: l2.
Proof. induction l1 as [|y l1 IH]; simpl; [done|]. by rewrite <- IH. Qed.

Lemma filter_negb_id f l :
  existsb f l = false → List.filter (λ y, negb (f y)) l = l.
Proof.
  induction l as [|y l IH]; simpl; [done|].
  destruct (f y); simpl; [discriminate|].
  intros H. by rewrite IH.
Qed.

Lemma filter_negb_middle f (l1 : list A) x l2 :
  existsb f l1 = false → f x = true → existsb f l2 = false →
  List.filter (λ y, negb (f y)) (l1 ++ x :: l2) = l1 ++ l2.
Proof.
  intros H1 Hx H2. rewrite List.filter_app. simpl. rewrite Hx. simpl.
  by rewrite !filter_negb_id.
Qed.
End ArrayFacts.

(** ** The store *)

Lemma cart_of_email e d c : cart_of e d = Some c → Cart.email c = e.
Proof.
  unfold cart_of. destruct (carts d !! e) as [c'|]; [|done].
  destruct (String.eqb (Cart.email c') e) eqn:He; [|done].
  intros [= <-]. by apply String.eqb_eq.
Qed.

Lemma cart_of_put_cart c d : cart_of (Cart.email c) (put_cart c d) = Some c.
Proof.
  unfold cart_of, put_cart. simpl.
  rewrite lookup_insert_eq. by rewrite String.eqb_refl.
Qed.

Lemma cart_of_put_cart_ne e c d :
  e ≠ Cart.email c → cart_of e (put_cart c d) = cart_of e d.
Proof.
  intros Hne. unfold cart_of, put_cart. simpl.
  by rewrite lookup_insert_ne.
Qed.

Lemma put_cart_put_cart c1 c2 d :
  Cart.email c1 = Cart.email c2 → put_cart c2 (put_cart c1 d) = put_cart c2 d.
Proof.
  intros He. unfold put_cart. simpl. rewrite He.
  by rewrite insert_insert_eq.
Qed.

Lemma product_of_id id d p : product_of id d = Some p → Product._id p = id.
Proof.
  unfold product_of. destruct (products d !! id) as [p'|]; [|done].
  destruct (String.eqb (Product._id p') id) eqn:He; [|done].
  intros [= <-]. by apply String.eqb_eq.
Qed.

Lemma product_of_put_cart id c d :
  product_of id (put_cart c d) = product_of id d.
Proof. done. Qed.

Lemma items_of_cart e d c : cart_of e d = Some c → items_of e d = Cart.cartItems c.
Proof. unfold items_of. by intros ->. Qed.

Lemma items_of_put_cart c d :
  items_of (Cart.email c) (put_cart c d) = Cart.cartItems c.
Proof. unfold items_of. by rewrite cart_of_put_cart. Qed.

(** Unfolds the monad down to the store. *)
Ltac run :=
  unfold bind, ret, throw, gets, modify, Cart_findOne, Product_findById,
    Cart_create, Cart_save, User_save, on_db, user_get, user_set, user_save,
    Promise_all;
  simpl.

(** ** addProductToCart *)

Section AddProduct.
Variable config : Config.
Implicit Types (user : User.t) (productId : string) (quantity : Z) (d : Db).

Import httpStatus.

(** C10. With a [productId] the catalogue does not have, the call throws
    400 "Product doesn't exist in database" and the store is the one it
    started from: no cart was created, no cart was changed. *)
Theorem addProductToCart_unknown_product user productId quantity d :
  product_of productId d = None →
  addProductToCart config user productId quantity d
  = (Throw (mkApiError BAD_REQUEST "Product doesn't exist in database"), d).
Proof.
  intros Hp. unfold addProductToCart. run. by rewrite Hp.
Qed.

(** C8. With a product of the catalogue that is not in the cart of the
    user, the call returns the cart with one item more, put at the end: the
    catalogue's product with the given quantity. The cart is the stored one
    afterwards, and a cart that did not exist starts empty with the default
    payment option. *)
Theorem addProductToCart_new_product user productId quantity d product :
  product_of productId d = Some product →
  existsb (is_product productId) (items_of (User.email user) d) = false →
  ∃ updatedCart,
    addProductToCart config user productId quantity d
    = (Ok updatedCart, put_cart updatedCart d)
    ∧ Cart.email updatedCart = User.email user
    ∧ Cart.cartItems updatedCart
      = items_of (User.email user) d ++ [Cart.mkItem product quantity]
    ∧ length (Cart.cartItems updatedCart)
      = S (length (items_of (User.email user) d))
    ∧ Cart.paymentOption updatedCart
      = match cart_of (User.email user) d with
        | Some cart => Cart.paymentOption cart
        | None => default_payment_option config
        end
    ∧ cart_of (User.email user) (put_cart updatedCart d) = Some updatedCart.
Proof.
  intros Hp Hnew. unfold addProductToCart, items_of in *. run. rewrite Hp.
  destruct (cart_of (User.email user) d) as [cart|] eqn:Hc; simpl.
  - rewrite Hnew. pose proof (cart_of_email _ _ _ Hc) as He.
    eexists. split; [reflexivity|]. simpl.
    repeat split; try done.
    + rewrite length_app. simpl. lia.
    + rewrite <- He at 1.
      apply (cart_of_put_cart (Cart.set_cartItems _ cart)).
  - eexists. split.
    + by rewrite put_cart_put_cart.
    + simpl. repeat split; try done.
      apply (cart_of_put_cart (Cart.mk _ _ _)).
Qed.

(** C7, as the code has it. With a [productId] that is in the cart of the
    user, the call throws 400 and the store is unchanged; the message is
    "Product already in cart..." when the catalogue still has the product,
    and "Product doesn't exist in database" when it no longer does. *)
Theorem addProductToCart_duplicate user productId quantity d :
  existsb (is_product productId) (items_of (User.email user) d) = true →
  addProductToCart config user productId quantity d
  = (Throw (mkApiError BAD_REQUEST
       match product_of productId d with
       | Some _ =>
           "Product already in cart. Use the cart sidebar to update or remove product from cart"
       | None => "Product doesn't exist in database"
       end),
     d).
Proof.
  intros Hin. unfold addProductToCart, items_of in *. run.
  destruct (product_of productId d) as [product|]; [|done].
  destruct (cart_of (User.email user) d) as [cart|]; simpl.
  - by rewrite Hin.
  - discriminate.
Qed.
End AddProduct.

(** ** Product identifiers of a cart *)

Lemma is_product_true productId item :
  is_product productId item = true ↔ Product._id (Cart.product item) = productId.
Proof. apply String.eqb_eq. Qed.

Lemma existsb_is_product productId items :
  existsb (is_product productId) items = true ↔ productId ∈ ids items.
Proof.
  unfold ids. rewrite existsb_exists, list_elem_of_fmap. split.
  - intros (x & Hx & Hp). exists x. split.
    + symmetry. by apply is_product_true.
    + by apply list_elem_of_In.
  - intros (x & Hp & Hx). exists x. split.
    + by apply list_elem_of_In.
    + by apply is_product_true.
Qed.

Lemma not_existsb_is_product productId items :
  existsb (is_product productId) items = false ↔ productId ∉ ids items.
Proof.
  rewrite <- existsb_is_product.
  destruct (existsb (is_product productId) items); naive_solver.
Qed.

Lemma unique_products_rest productId l1 item l2 :
  unique_products (l1 ++ item :: l2) →
  is_product productId item = true →
  existsb (is_product productId) l2 = false.
Proof.
  unfold unique_products, ids. rewrite fmap_app, fmap_cons.
  intros Hnd Hitem. apply NoDup_app in Hnd as (_ & _ & Hnd).
  apply NoDup_cons in Hnd as [Hnotin _].
  apply not_existsb_is_product.
  apply is_product_true in Hitem. by rewrite <- Hitem.
Qed.

Lemma unique_products_without productId l1 item l2 :
  unique_products (l1 ++ item :: l2) →
  first_match (is_product productId) (l1 ++ item :: l2) l1 item l2 →
  existsb (is_product productId) (l1 ++ l2) = false.
Proof.
  intros Hu (_ & Hl1 & Hitem). rewrite existsb_app, Hl1. simpl.
  by eapply unique_products_rest.
Qed.

(** ** updateProductInCart *)

Section UpdateProduct.
Implicit Types (user : User.t) (productId : string) (quantity : Z) (d : Db).

Import httpStatus.

Lemma updateProductInCart_no_cart user productId quantity d :
  cart_of (User.email user) d = None →
  updateProductInCart user productId quantity d
  = (Throw (mkApiError BAD_REQUEST
       "User does not have a cart. Use POST to create cart and add a product"),
     d).
Proof. intros Hc. unfold updateProductInCart. run. by rewrite Hc. Qed.

Lemma updateProductInCart_unknown_product user productId quantity d cart :
  cart_of (User.email user) d = Some cart →
  product_of productId d = None →
  updateProductInCart user productId quantity d
  = (Throw (mkApiError BAD_REQUEST "Product doesn't exist in database"), d).
Proof.
  intros Hc Hp. unfold updateProductInCart. run. by rewrite Hc, Hp.
Qed.

Lemma updateProductInCart_not_in_cart user productId quantity d cart :
  cart_of (User.email user) d = Some cart →
  is_Some (product_of productId d) →
  existsb (is_product productId) (Cart.cartItems cart) = false →
  updateProductInCart user productId quantity d
  = (Throw (mkApiError BAD_REQUEST "Product not in cart"), d).
Proof.
  intros Hc [p Hp] Hin. unfold updateProductInCart. run.
  by rewrite Hc, Hp, find_ref_none.
Qed.

Lemma updateProductInCart_set user productId quantity d cart l1 item l2 :
  cart_of (User.email user) d = Some cart →
  is_Some (product_of productId d) →
  first_match (is_product productId) (Cart.cartItems cart) l1 item l2 →
  0 < quantity →
  updateProductInCart user productId quantity d
  = (Ok (Some (Cart.set_cartItems
                 (l1 ++ Cart.set_quantity quantity item :: l2) cart)),
     put_cart
       (Cart.set_cartItems (l1 ++ Cart.set_quantity quantity item :: l2) cart)
       d).
Proof.
  intros Hc [p Hp] Hfm Hq. unfold updateProductInCart. run.
  rewrite Hc, Hp, (find_ref_first _ _ _ _ _ Hfm).
  assert ((quantity >? 0) = true) as -> by lia.
  destruct Hfm as (-> & _ & _). by rewrite alter_middle.
Qed.

Lemma updateProductInCart_remove user productId quantity d cart :
  cart_of (User.email user) d = Some cart →
  is_Some (product_of productId d) →
  existsb (is_product productId) (Cart.cartItems cart) = true →
  quantity ≤ 0 →
  updateProductInCart user productId quantity d
  = (Ok None,
     put_cart
       (Cart.set_cartItems
          (List.filter (λ item, negb (is_product productId item))
             (Cart.cartItems cart)) cart)
       d).
Proof.
  intros Hc [p Hp] Hin Hq. unfold updateProductInCart. run.
  destruct (existsb_first_match _ _ Hin) as (l1 & item & l2 & Hfm).
  rewrite Hc, Hp, (find_ref_first _ _ _ _ _ Hfm).
  by assert ((quantity >? 0) = false) as -> by lia.
Qed.

(** C6, as the code has it. On a cart that has [productId], with the
    product still in the catalogue: a quantity above 0 becomes the quantity
    of that item, the other items and the length stay, and the cart is
    returned; a quantity of 0 or below takes the item out, the length goes
    down by one, and [null] is returned. The cart is saved in both cases. *)
Theorem updateProductInCart_in_cart user productId quantity d cart :
  cart_of (User.email user) d = Some cart →
  unique_products (Cart.cartItems cart) →
  existsb (is_product productId) (Cart.cartItems cart) = true →
  is_Some (product_of productId d) →
  ∃ l1 item l2,
    Cart.cartItems cart = l1 ++ item :: l2
    ∧ Product._id (Cart.product item) = productId
    ∧ if quantity >? 0 then
        let updated :=
          Cart.set_cartItems
            (l1 ++ Cart.mkItem (Cart.product item) quantity :: l2) cart in
        updateProductInCart user productId quantity d
        = (Ok (Some updated), put_cart updated d)
        ∧ length (Cart.cartItems updated) = length (Cart.cartItems cart)
      else
        let updated := Cart.set_cartItems (l1 ++ l2) cart in
        updateProductInCart user productId quantity d
        = (Ok None, put_cart updated d)
        ∧ S (length (Cart.cartItems updated)) = length (Cart.cartItems cart).
Proof.
  intros Hc Hu Hin Hp.
  destruct (existsb_first_match _ _ Hin) as (l1 & item & l2 & Hfm).
  pose proof Hfm as (Hitems & Hl1 & Hitem).
  exists l1, item, l2. split; [done|]. split; [by apply is_product_true|].
  destruct (quantity >? 0) eqn:Hq; simpl.
  - split.
    + apply (updateProductInCart_set _ _ _ _ _ _ _ _ Hc Hp Hfm). lia.
    + rewrite Hitems, !length_app. simpl. lia.
  - split.
    + rewrite (updateProductInCart_remove _ _ _ _ _ Hc Hp Hin) by lia.
      rewrite Hitems in Hu |- *.
      rewrite (filter_negb_middle _ _ _ _ Hl1 Hitem); [done|].
      by eapply unique_products_rest.
    + rewrite Hitems, !length_app. simpl. lia.
Qed.
End UpdateProduct.

(** ** deleteProductFromCart *)

Section DeleteProduct.
Implicit Types (user : User.t) (productId : string) (d : Db).

Import httpStatus.

Lemma deleteProductFromCart_no_cart user productId d :
  cart_of (User.email user) d = None →
  deleteProductFromCart user productId d
  = (Throw (mkApiError BAD_REQUEST "User does not have a cart"), d).
Proof. intros Hc. unfold deleteProductFromCart. run. by rewrite Hc. Qed.

Lemma deleteProductFromCart_not_in_cart user productId d cart :
  cart_of (User.email user) d = Some cart →
  existsb (is_product productId) (Cart.cartItems cart) = false →
  deleteProductFromCart user productId d
  = (Throw (mkApiError BAD_REQUEST "Product not in cart"), d).
Proof.
  intros Hc Hin. unfold deleteProductFromCart. run.
  by rewrite Hc, findIndex_none.
Qed.

Lemma deleteProductFromCart_first user productId d cart l1 item l2 :
  cart_of (User.email user) d = Some cart →
  first_match (is_product productId) (Cart.cartItems cart) l1 item l2 →
  deleteProductFromCart user productId d
  = (Ok (Cart.set_cartItems (l1 ++ l2) cart),
     put_cart (Cart.set_cartItems (l1 ++ l2) cart) d).
Proof.
  intros Hc Hfm. unfold deleteProductFromCart. run.
  rewrite Hc, (findIndex_first _ _ _ _ _ Hfm).
  assert ((Z.of_nat (length l1) =? -1) = false) as ->
    by (apply Z.eqb_neq; lia).
  destruct Hfm as (-> & _ & _). by rewrite splice_one.
Qed.

(** C9. On a cart that has [productId], the call takes out that one item,
    keeps the others in their order, saves and returns the cart; the same
    call right after throws 400 "Product not in cart". *)
Theorem deleteProductFromCart_then_again user productId d cart :
  cart_of (User.email user) d = Some cart →
  unique_products (Cart.cartItems cart) →
  existsb (is_product productId) (Cart.cartItems cart) = true →
  ∃ l1 item l2,
    Cart.cartItems cart = l1 ++ item :: l2
    ∧ Product._id (Cart.product item) = productId
    ∧ let updated := Cart.set_cartItems (l1 ++ l2) cart in
      deleteProductFromCart user productId d
      = (Ok updated, put_cart updated d)
      ∧ deleteProductFromCart user productId (put_cart updated d)
        = (Throw (mkApiError BAD_REQUEST "Product not in cart"),
           put_cart updated d).
Proof.
  intros Hc Hu Hin.
  destruct (existsb_first_match _ _ Hin) as (l1 & item & l2 & Hfm).
  pose proof Hfm as (Hitems & Hl1 & Hitem).
  exists l1, item, l2. split; [done|]. split; [by apply is_product_true|].
  simpl. split; [by apply (deleteProductFromCart_first _ _ _ _ _ item)|].
  apply (deleteProductFromCart_not_in_cart _ _ _
           (Cart.set_cartItems (l1 ++ l2) cart)).
  - rewrite <- (cart_of_email _ _ _ Hc).
    apply (cart_of_put_cart (Cart.set_cartItems (l1 ++ l2) cart)).
  - simpl. rewrite Hitems in Hu, Hfm.
    by apply (unique_products_without _ _ item).
Qed.
End DeleteProduct.

(** ** checkout *)

Section Checkout.
Variable config : Config.
Implicit Types (user : User.t) (d : Db) (cart : Cart.t).

Import httpStatus.



(** The test [!user.hasSetNonDefaultAddress()] is false for every user. *)
Lemma not_hasSetNonDefaultAddress user :
  js_not (hasSetNonDefaultAddress config user) = false.
Proof. reflexivity. Qed.

(** What the test would be with the promise awaited. *)
Lemma not_await_hasSetNonDefaultAddress user :
  js_not (js_await (hasSetNonDefaultAddress config user)) = true
  ↔ User.address user = default_address config.
Proof.
  unfold js_not. simpl. rewrite negb_involutive. apply String.eqb_eq.
Qed.

Lemma checkout_no_cart user d :
  cart_of (User.email user) d = None →
  checkout config user d
  = (Throw (mkApiError NOT_FOUND "User does not have a cart"),
     mkSession user d).
Proof. intros Hc. unfold checkout, checkout_async. run. by rewrite Hc. Qed.

Lemma checkout_empty_cart user d cart :
  cart_of (User.email user) d = Some cart →
  Cart.cartItems cart = [] →
  checkout config user d
  = (Throw (mkApiError BAD_REQUEST "Cart is empty"), mkSession user d).
Proof.
  intros Hc He. unfold checkout, checkout_async. run. by rewrite Hc, He.
Qed.

Lemma checkout_insufficient user d cart :
  cart_of (User.email user) d = Some cart →
  Cart.cartItems cart ≠ [] →
  User.walletMoney user < cart_total (Cart.cartItems cart) →
  checkout config user d
  = (Throw (mkApiError BAD_REQUEST "Wallet balance is insufficient"),
     mkSession user d).
Proof.
  intros Hc He Hw. unfold checkout, checkout_async. run. rewrite Hc.
  destruct (Cart.cartItems cart) as [|item items] eqn:Hitems; [done|].
  simpl. unfold parseFloat.
  by assert ((cart_total (item :: items) >? User.walletMoney user) = true)
    as -> by lia.
Qed.

(** With a cart that has items and a wallet that covers them, the call
    debits and empties, whatever the address is. *)
Lemma checkout_pays user d cart :
  cart_of (User.email user) d = Some cart →
  Cart.cartItems cart ≠ [] →
  cart_total (Cart.cartItems cart) ≤ User.walletMoney user →
  checkout config user d
  = (Ok (Cart.set_cartItems [] cart),
     mkSession
       (User.set_walletMoney
          (User.walletMoney user - cart_total (Cart.cartItems cart)) user)
       (put_cart (Cart.set_cartItems [] cart)
          (put_user
             (User.set_walletMoney
                (User.walletMoney user - cart_total (Cart.cartItems cart))
                user)
             d))).
Proof.
  intros Hc He Hw. unfold checkout, checkout_async. run. rewrite Hc.
  destruct (Cart.cartItems cart) as [|item items] eqn:Hitems; [done|].
  simpl. unfold parseFloat.
  by assert ((cart_total (item :: items) >? User.walletMoney user) = false)
    as -> by lia.
Qed.

(** X9. No call of [checkout] throws "Address not set", whatever the user
    and the store are. *)
Lemma checkout_never_address_not_set user d e :
  (checkout config user d).1 = Throw e → message e ≠ "Address not set".
Proof.
  destruct (cart_of (User.email user) d) as [cart|] eqn:Hc.
  - destruct (Cart.cartItems cart) as [|item items] eqn:Hitems.
    + rewrite (checkout_empty_cart _ _ _ Hc Hitems). by intros [= <-].
    + destruct (Z.le_gt_cases (cart_total (Cart.cartItems cart))
                  (User.walletMoney user)) as [Hw|Hw].
      * rewrite (checkout_pays _ _ _ Hc); [done| |done]. by rewrite Hitems.
      * rewrite (checkout_insufficient _ _ _ Hc); [|by rewrite Hitems|lia].
        by intros [= <-].
  - rewrite (checkout_no_cart _ _ Hc). by intros [= <-].
Qed.

End Checkout.

(** ** The carts the service can build *)

Section Effect.
Variable config : Config.

Lemma handle_products r d : products (handle config r d) = products d.
Proof.
  destruct r as [user productId quantity|user productId quantity
                |user productId|user]; simpl.
  - unfold addProductToCart. run.
    destruct (product_of productId d); [|done].
    destruct (cart_of (User.email user) d); simpl; [|done].
    by destruct (existsb _ _).
  - unfold updateProductInCart. run.
    destruct (cart_of (User.email user) d); [|done].
    destruct (product_of productId d); [|done].
    destruct (find_ref _ _); [|done].
    by destruct (quantity >? 0).
  - unfold deleteProductFromCart. run.
    destruct (cart_of (User.email user) d); [|done].
    by destruct (_ =? _).
  - unfold checkout, checkout_async. run.
    destruct (cart_of (User.email user) d); [|done].
    destruct (length _ =? 0)%nat; [done|].
    by destruct (_ >? _).
Qed.

(** A call leaves the carts as they are, or saves one cart whose items are
    a change of the items the owner had. *)
Lemma handle_carts r d :
  carts (handle config r d) = carts d
  ∨ ∃ c,
      carts (handle config r d) = <[Cart.email c := c]> (carts d)
      ∧ items_change d r (items_of (Cart.email c) d) (Cart.cartItems c).
Proof.
  destruct r as [user productId quantity|user productId quantity
                |user productId|user]; simpl.
  - unfold addProductToCart. run.
    destruct (product_of productId d) as [product|] eqn:Hp; [|by left].
    destruct (cart_of (User.email user) d) as [cart|] eqn:Hc; simpl.
    + destruct (existsb _ _) eqn:Hin; [by left|]. right.
      eexists. split; [reflexivity|]. simpl.
      rewrite (cart_of_email _ _ _ Hc), (items_of_cart _ _ _ Hc).
      by constructor.
    + right.
      exists (Cart.mk (User.email user) [Cart.mkItem product quantity]
                (default_payment_option config)).
      split.
      * simpl. apply insert_insert_eq.
      * simpl. unfold items_of. rewrite Hc.
        by apply (change_add _ _ _ _ _ []).
  - destruct (cart_of (User.email user) d) as [cart|] eqn:Hc;
      [|rewrite updateProductInCart_no_cart by done; by left].
    destruct (product_of productId d) as [product|] eqn:Hp;
      [|rewrite (updateProductInCart_unknown_product _ _ _ _ _ Hc Hp);
        by left].
    destruct (existsb (is_product productId) (Cart.cartItems cart)) eqn:Hin;
      [|rewrite (updateProductInCart_not_in_cart _ _ _ _ _ Hc) by done;
        by left].
    right. destruct (Z.lt_ge_cases 0 quantity) as [Hq|Hq].
    + destruct (existsb_first_match _ _ Hin) as (l1 & item & l2 & Hfm).
      rewrite (updateProductInCart_set _ _ _ _ _ _ _ _ Hc (mk_is_Some _ _ Hp) Hfm Hq).
      eexists. split; [reflexivity|]. simpl.
      rewrite (cart_of_email _ _ _ Hc), (items_of_cart _ _ _ Hc).
      destruct Hfm as (-> & _). by constructor.
    + rewrite (updateProductInCart_remove _ _ _ _ _ Hc (mk_is_Some _ _ Hp) Hin Hq).
      eexists. split; [reflexivity|]. simpl.
      rewrite (cart_of_email _ _ _ Hc), (items_of_cart _ _ _ Hc).
      constructor.
  - destruct (cart_of (User.email user) d) as [cart|] eqn:Hc;
      [|rewrite deleteProductFromCart_no_cart by done; by left].
    destruct (existsb (is_product productId) (Cart.cartItems cart)) eqn:Hin;
      [|rewrite (deleteProductFromCart_not_in_cart _ _ _ _ Hc Hin); by left].
    right. destruct (existsb_first_match _ _ Hin) as (l1 & item & l2 & Hfm).
    rewrite (deleteProductFromCart_first _ _ _ _ _ _ _ Hc Hfm).
    eexists. split; [reflexivity|]. simpl.
    rewrite (cart_of_email _ _ _ Hc), (items_of_cart _ _ _ Hc).
    destruct Hfm as (-> & _). constructor.
  - destruct (cart_of (User.email user) d) as [cart|] eqn:Hc;
      [|rewrite checkout_no_cart by done; by left].
    destruct (Cart.cartItems cart) as [|item items] eqn:Hitems;
      [rewrite (checkout_empty_cart _ _ _ _ Hc Hitems); by left|].
    destruct (Z.le_gt_cases (cart_total (Cart.cartItems cart))
                (User.walletMoney user)) as [Hw|Hw].
    + right. rewrite (checkout_pays _ _ _ _ Hc); [| by rewrite Hitems|done].
      eexists. split; [reflexivity|]. simpl. constructor.
    + left. by rewrite (checkout_insufficient _ _ _ _ Hc);
        [|rewrite Hitems|lia].
Qed.
End Effect.

Section Invariant.
Variable config : Config.
Variable allowed : request → Prop.
Variable P : list Cart.item → Prop.
Hypothesis P_nil : P [].
Hypothesis P_change :
  ∀ d r old new, allowed r → items_change d r old new → P old → P new.

Lemma every_cart_items_of d e : every_cart P d → P (items_of e d).
Proof.
  intros Hd. unfold items_of, cart_of.
  destruct (carts d !! e) as [c|] eqn:Hc; [|done].
  destruct (String.eqb _ _); [|done]. by apply (Hd e).
Qed.

Lemma every_cart_handle r d :
  allowed r → every_cart P d → every_cart P (handle config r d).
Proof.
  intros Hr Hd e c.
  destruct (handle_carts config r d) as [->|(c' & -> & Hch)]; [apply Hd|].
  rewrite lookup_insert. case_decide as He.
  - intros [= <-]. eapply P_change; [done..|]. by apply every_cart_items_of.
  - apply Hd.
Qed.

Lemma every_cart_reachable d :
  reachable_by config allowed d → every_cart P d.
Proof.
  induction 1 as [catalogue accounts|r d Hr _ IH].
  - intros e c. simpl. by rewrite lookup_empty.
  - by apply every_cart_handle.
Qed.
End Invariant.

(** The four operations keep the products of a cart distinct. *)
Lemma unique_products_change d r old new :
  items_change d r old new → unique_products old → unique_products new.
Proof.
  unfold unique_products, ids.
  destruct 1 as [user productId quantity product old Hp Hin
                |user productId quantity l1 item l2 Hq
                |user productId quantity old
                |user productId l1 item l2
                |user old]; intros Hu.
  - rewrite fmap_app. apply NoDup_app. split; [done|]. split.
    + intros id Hid. simpl. rewrite (product_of_id _ _ _ Hp).
      intros ->%list_elem_of_singleton.
      by apply not_existsb_is_product in Hin.
    + apply NoDup_singleton.
  - by rewrite fmap_app, fmap_cons in *.
  - eapply sublist_NoDup; [done|]. apply fmap_sublist.
    clear. induction old as [|x old IH]; simpl; [done|].
    destruct (negb _); by constructor.
  - rewrite fmap_app, fmap_cons in Hu. rewrite fmap_app.
    eapply sublist_NoDup; [done|].
    apply sublist_app; [done|]. by apply sublist_cons.
  - constructor.
Qed.

(** X6. In every store the four operations can build, no cart has two
    items with the same product identifier. *)
Lemma reachable_unique_products config d :
  reachable config d → every_cart unique_products d.
Proof.
  apply every_cart_reachable.
  - constructor.
  - intros ? ? ? ? _. apply unique_products_change.
Qed.

Lemma positive_quantities_change d r old new :
  positive_add r →
  items_change d r old new → positive_quantities old → positive_quantities new.
Proof.
  unfold positive_quantities.
  intros Hr Hch. destruct Hch as [user productId quantity product old Hp Hin
                |user productId quantity l1 item l2 Hq
                |user productId quantity old
                |user productId l1 item l2
                |user old]; intros Hpos.
  - apply Forall_app. split; [done|]. by repeat constructor.
  - apply Forall_app in Hpos as [H1 [_ H2]%Forall_cons].
    apply Forall_app. split; [done|]. by constructor.
  - apply Forall_forall. intros x [Hx _]%list_elem_of_In%filter_In.
    apply list_elem_of_In in Hx.
    by apply (proj1 (Forall_forall _ _) Hpos).
  - apply Forall_app in Hpos as [H1 [_ H2]%Forall_cons].
    by apply Forall_app.
  - constructor.
Qed.

(** C4, as the code has it. In every store reached by calls of the four
    operations in which no product is added with a quantity of 0 or below,
    every item of every cart has a quantity above 0. *)
Theorem reachable_positive_quantities config d :
  reachable_by config positive_add d → every_cart positive_quantities d.
Proof.
  apply every_cart_reachable.
  - constructor.
  - apply positive_quantities_change.
Qed.

(** ** The shop of the examples *)

Lemma shop_cart_unique : unique_products (Cart.cartItems shop_cart).
Proof.
  unfold unique_products. simpl.
  apply NoDup_cons. split; [|apply NoDup_singleton].
  by intros [=]%list_elem_of_singleton.
Defined.

(** The wallet of 50 of the examples does not pay the cart of 55. *)
Lemma checkout_shop_insufficient :
  checkout shop_config (shopper 50 "12 Park Street") shop_busy
  = (Throw (mkApiError httpStatus.BAD_REQUEST "Wallet balance is insufficient"),
     mkSession (shopper 50 "12 Park Street") shop_busy).
Proof. reflexivity. Qed.

(** With every call of the store served, a call of [checkout] that throws
    leaves the user document and the store as they were. *)
Lemma checkout_throw_unchanged config user d e :
  (checkout config user d).1 = Throw e →
  (checkout config user d).2 = mkSession user d.
Proof.
  destruct (cart_of (User.email user) d) as [cart|] eqn:Hc.
  - destruct (Cart.cartItems cart) as [|item items] eqn:Hitems.
    + by rewrite (checkout_empty_cart _ _ _ _ Hc Hitems).
    + destruct (Z.le_gt_cases (cart_total (Cart.cartItems cart))
                  (User.walletMoney user)) as [Hw|Hw].
      * rewrite (checkout_pays _ _ _ _ Hc); [done| |done]. by rewrite Hitems.
      * by rewrite (checkout_insufficient _ _ _ _ Hc); [|rewrite Hitems|lia].
  - by rewrite (checkout_no_cart _ _ _ Hc).
Qed.

(** C1, where the code departs from it. The address of the user is the
    default one, the cart has items, and [checkout] does not throw: it
    returns the emptied cart and has debited the wallet. *)
Theorem checkout_default_address_not_refused :
  User.address (shopper 100 "ADDRESS_NOT_SET") = default_address shop_config
  ∧ Cart.cartItems shop_cart ≠ []
  ∧ checkout shop_config (shopper 100 "ADDRESS_NOT_SET") shop_busy
    = (Ok shop_cart_empty,
       mkSession (shopper 45 "ADDRESS_NOT_SET")
         (put_cart shop_cart_empty
            (put_user (shopper 45 "ADDRESS_NOT_SET") shop_busy))).
Proof. split; [reflexivity|]. split; [discriminate|reflexivity]. Qed.

(** C5, where the code departs from it. With the default address, which is
    one of the four conditions, the call does not fail, and it changes both
    the wallet (55 becomes 0) and the items of the cart (two become none). *)
Theorem checkout_default_address_not_untouched :
  let user := shopper 55 "ADDRESS_NOT_SET" in
  let after := checkout shop_config user shop_busy in
  User.address user = default_address shop_config
  ∧ (∀ e, after.1 ≠ Throw e)
  ∧ User.walletMoney user = 55
  ∧ User.walletMoney (this after.2) = 0
  ∧ (User.walletMoney <$> users (db after.2) !! User._id user) = Some 0
  ∧ length (items_of (User.email user) shop_busy) = 2%nat
  ∧ items_of (User.email user) (db after.2) = [].
Proof. repeat split; try reflexivity. intros e. discriminate. Qed.

(** C10 at work: a product the shop does not have. *)
Lemma addProductToCart_unknown_product_witness :
  addProductToCart shop_config (shopper 100 "12 Park Street") "p9" 1 shop_open
  = (Throw (mkApiError httpStatus.BAD_REQUEST "Product doesn't exist in database"),
     shop_open).
Proof. apply addProductToCart_unknown_product. reflexivity. Defined.

(** C8 at work: the first product of a user without a cart. *)
Lemma addProductToCart_new_product_witness :
  ∃ updatedCart,
    addProductToCart shop_config (shopper 100 "12 Park Street") "p1" 2 shop_open
    = (Ok updatedCart, put_cart updatedCart shop_open)
    ∧ Cart.email updatedCart = "crio-user@gmail.com"
    ∧ Cart.cartItems updatedCart = [] ++ [Cart.mkItem ball 2]
    ∧ length (Cart.cartItems updatedCart) = 1%nat
    ∧ Cart.paymentOption updatedCart = "PAYMENT_OPTION_DEFAULT"
    ∧ cart_of "crio-user@gmail.com" (put_cart updatedCart shop_open)
      = Some updatedCart.
Proof.
  apply (addProductToCart_new_product shop_config
           (shopper 100 "12 Park Street") "p1" 2 shop_open ball);
    reflexivity.
Defined.

(** The claim C7 without the catalogue: the ball is in the cart, the
    catalogue has lost it, and the call throws the other message. *)
Lemma addProductToCart_duplicate_counterexample :
  existsb (is_product "p1") (items_of "crio-user@gmail.com" shop_cleared) = true
  ∧ (addProductToCart shop_config (shopper 100 "12 Park Street") "p1" 1
       shop_cleared).1
    = Throw (mkApiError httpStatus.BAD_REQUEST "Product doesn't exist in database")
  ∧ (addProductToCart shop_config (shopper 100 "12 Park Street") "p1" 1
       shop_cleared).1
    ≠ Throw (mkApiError httpStatus.BAD_REQUEST
        "Product already in cart. Use the cart sidebar to update or remove product from cart").
Proof. split; [reflexivity|]. split; [reflexivity|discriminate]. Qed.

(** C7 at work: the ball is in the cart and in the catalogue. *)
Lemma addProductToCart_duplicate_witness :
  addProductToCart shop_config (shopper 100 "12 Park Street") "p1" 7 shop_busy
  = (Throw (mkApiError httpStatus.BAD_REQUEST
       "Product already in cart. Use the cart sidebar to update or remove product from cart"),
     shop_busy).
Proof.
  apply (addProductToCart_duplicate shop_config
           (shopper 100 "12 Park Street") "p1" 7 shop_busy).
  reflexivity.
Defined.

(** The claim C6 without the catalogue: the ball is in the cart, the
    catalogue has lost it, and the call throws instead of updating. *)
Lemma updateProductInCart_counterexample :
  existsb (is_product "p1") (items_of "crio-user@gmail.com" shop_cleared) = true
  ∧ updateProductInCart (shopper 100 "12 Park Street") "p1" 5 shop_cleared
    = (Throw (mkApiError httpStatus.BAD_REQUEST "Product doesn't exist in database"),
       shop_cleared)
  ∧ updateProductInCart (shopper 100 "12 Park Street") "p1" 0 shop_cleared
    = (Throw (mkApiError httpStatus.BAD_REQUEST "Product doesn't exist in database"),
       shop_cleared).
Proof. repeat split; reflexivity. Qed.

(** C6 at work: three balls instead of two. *)
Lemma updateProductInCart_in_cart_witness :
  ∃ l1 item l2,
    Cart.cartItems shop_cart = l1 ++ item :: l2
    ∧ Product._id (Cart.product item) = "p1"
    ∧ let updated :=
        Cart.set_cartItems (l1 ++ Cart.mkItem (Cart.product item) 3 :: l2)
          shop_cart in
      updateProductInCart (shopper 100 "12 Park Street") "p1" 3 shop_busy
      = (Ok (Some updated), put_cart updated shop_busy)
      ∧ length (Cart.cartItems updated) = length (Cart.cartItems shop_cart).
Proof.
  apply (updateProductInCart_in_cart (shopper 100 "12 Park Street") "p1" 3
           shop_busy shop_cart).
  - reflexivity.
  - apply shop_cart_unique.
  - reflexivity.
  - exists ball. reflexivity.
Defined.

(** C9 at work: the bat is deleted, and is not there to delete again. *)
Lemma deleteProductFromCart_then_again_witness :
  ∃ l1 item l2,
    Cart.cartItems shop_cart = l1 ++ item :: l2
    ∧ Product._id (Cart.product item) = "p2"
    ∧ let updated := Cart.set_cartItems (l1 ++ l2) shop_cart in
      deleteProductFromCart (shopper 100 "12 Park Street") "p2" shop_busy
      = (Ok updated, put_cart updated shop_busy)
      ∧ deleteProductFromCart (shopper 100 "12 Park Street") "p2"
          (put_cart updated shop_busy)
        = (Throw (mkApiError httpStatus.BAD_REQUEST "Product not in cart"),
           put_cart updated shop_busy).
Proof.
  apply (deleteProductFromCart_then_again (shopper 100 "12 Park Street") "p2"
           shop_busy shop_cart).
  - reflexivity.
  - apply shop_cart_unique.
  - reflexivity.
Defined.


(** The claim C4 with any quantity: a ball added with quantity 0 is stored
    with quantity 0. *)
Lemma positive_quantities_counterexample :
  let d := handle shop_config
             (AddProduct (shopper 100 "12 Park Street") "p1" 0) shop_open in
  reachable shop_config d
  ∧ carts d !! "crio-user@gmail.com"
    = Some (Cart.mk "crio-user@gmail.com" [Cart.mkItem ball 0]
              "PAYMENT_OPTION_DEFAULT")
  ∧ ¬ every_cart positive_quantities d.
Proof.
  simpl. split; [|split].
  - apply (reachable_handle shop_config (λ _, True)
             (AddProduct (shopper 100 "12 Park Street") "p1" 0) shop_open I).
    apply reachable_start.
  - reflexivity.
  - intros H.
    specialize (H "crio-user@gmail.com" _ eq_refl).
    apply Forall_cons in H as [H _]. simpl in H. lia.
Qed.

(** C4 at work: the cart of the examples, built by two calls. *)
Lemma reachable_positive_quantities_witness :
  every_cart positive_quantities
    (handle shop_config (AddProduct (shopper 100 "12 Park Street") "p2" 1)
       (handle shop_config (AddProduct (shopper 100 "12 Park Street") "p1" 2)
          shop_open)).
Proof.
  apply (reachable_positive_quantities shop_config).
  apply reachable_handle; [simpl; lia|].
  apply reachable_handle; [simpl; lia|].
  apply reachable_start.
Defined.

(** * Further properties of the service *)

(** ** What one call does to the store *)

Lemma cart_of_insert_owner c d' d :
  carts d' = <[Cart.email c := c]> (carts d) →
  cart_of (Cart.email c) d' = Some c.
Proof.
  intros Hc. unfold cart_of. rewrite Hc, lookup_insert_eq.
  by rewrite String.eqb_refl.
Qed.

(** A call throws and leaves the store, or saves one cart under the email of
    its user and returns that cart or [null]. *)
Lemma handle_cases config r d :
  (∃ e,
     request_error config r d = Some e
     ∧ request_cart config r d = None
     ∧ handle config r d = d
     ∧ (statusCode e = httpStatus.BAD_REQUEST
        ∨ statusCode e = httpStatus.NOT_FOUND
          ∧ r = Checkout (request_user r)
          ∧ cart_of (User.email (request_user r)) d = None))
  ∨ (∃ c,
       request_error config r d = None
       ∧ Cart.email c = User.email (request_user r)
       ∧ carts (handle config r d) = <[Cart.email c := c]> (carts d)
       ∧ (request_cart config r d = Some c
          ∨ request_cart config r d = None
            ∧ ∃ user productId quantity,
                r = UpdateProduct user productId quantity ∧ quantity ≤ 0)).
Proof.
  destruct r as [user productId quantity|user productId quantity
                |user productId|user]; simpl.
  - unfold addProductToCart. run.
    destruct (product_of productId d) as [product|] eqn:Hp;
      [|left; eexists; simpl; by eauto].
    destruct (cart_of (User.email user) d) as [cart|] eqn:Hc; simpl.
    + destruct (existsb _ _) eqn:Hin; [left; eexists; simpl; by eauto|].
      right. eexists (Cart.set_cartItems _ cart). simpl. split; [done|].
      split; [|split; [reflexivity|by left]].
      by apply (cart_of_email _ d).
    + right.
      exists (Cart.mk (User.email user) [Cart.mkItem product quantity]
                (default_payment_option config)).
      simpl. repeat split; [|by left]. apply insert_insert_eq.
  - destruct (cart_of (User.email user) d) as [cart|] eqn:Hc;
      [|rewrite updateProductInCart_no_cart by done;
        left; eexists; simpl; by eauto].
    destruct (product_of productId d) as [product|] eqn:Hp;
      [|rewrite (updateProductInCart_unknown_product _ _ _ _ _ Hc Hp);
        left; eexists; simpl; by eauto].
    destruct (existsb (is_product productId) (Cart.cartItems cart)) eqn:Hin;
      [|rewrite (updateProductInCart_not_in_cart _ _ _ _ _ Hc) by done;
        left; eexists; simpl; by eauto].
    right. destruct (Z.lt_ge_cases 0 quantity) as [Hq|Hq].
    + destruct (existsb_first_match _ _ Hin) as (l1 & item & l2 & Hfm).
      rewrite (updateProductInCart_set _ _ _ _ _ _ _ _ Hc
                 (mk_is_Some _ _ Hp) Hfm Hq).
      eexists (Cart.set_cartItems _ cart). simpl. split; [done|].
      split; [|split; [reflexivity|by left]].
      by apply (cart_of_email _ d).
    + rewrite (updateProductInCart_remove _ _ _ _ _ Hc
                 (mk_is_Some _ _ Hp) Hin Hq).
      eexists (Cart.set_cartItems _ cart). simpl. split; [done|].
      split; [|split; [reflexivity|right; by eauto 10]].
      by apply (cart_of_email _ d).
  - destruct (cart_of (User.email user) d) as [cart|] eqn:Hc;
      [|rewrite deleteProductFromCart_no_cart by done;
        left; eexists; simpl; by eauto].
    destruct (existsb (is_product productId) (Cart.cartItems cart)) eqn:Hin;
      [|rewrite (deleteProductFromCart_not_in_cart _ _ _ _ Hc Hin);
        left; eexists; simpl; by eauto].
    right. destruct (existsb_first_match _ _ Hin) as (l1 & item & l2 & Hfm).
    rewrite (deleteProductFromCart_first _ _ _ _ _ _ _ Hc Hfm).
    eexists (Cart.set_cartItems _ cart). simpl. split; [done|].
    split; [|split; [reflexivity|by left]].
    by apply (cart_of_email _ d).
  - destruct (cart_of (User.email user) d) as [cart|] eqn:Hc;
      [|rewrite checkout_no_cart by done;
        left; eexists; simpl; by eauto 10].
    destruct (Cart.cartItems cart) as [|item items] eqn:Hitems;
      [rewrite (checkout_empty_cart _ _ _ _ Hc Hitems);
       left; eexists; simpl; by eauto|].
    destruct (Z.le_gt_cases (cart_total (Cart.cartItems cart))
                (User.walletMoney user)) as [Hw|Hw].
    + right. rewrite (checkout_pays _ _ _ _ Hc); [|by rewrite Hitems|done].
      eexists (Cart.set_cartItems _ cart). simpl. split; [done|].
      split; [|split; [reflexivity|by left]].
      by apply (cart_of_email _ d).
    + left. rewrite (checkout_insufficient _ _ _ _ Hc);
        [|by rewrite Hitems|lia].
      eexists; simpl; by eauto.
Qed.

(** X2. A call made for one user changes the cart of no other email. *)
Theorem handle_other_carts config r d email :
  email ≠ User.email (request_user r) →
  carts (handle config r d) !! email = carts d !! email.
Proof.
  intros Hne.
  destruct (handle_cases config r d)
    as [(e & _ & _ & -> & _)|(c & _ & Hc & -> & _)]; [done|].
  apply lookup_insert_ne. by rewrite Hc.
Qed.

(** X3. No list of calls of the four operations changes the catalogue. *)
Theorem handle_all_products config rs d :
  products (handle_all config rs d) = products d.
Proof.
  revert d. induction rs as [|r rs IH]; intros d; simpl; [done|].
  rewrite IH. apply handle_products.
Qed.

(** X4. Of the four operations only [checkout] writes to the user
    collection, and it writes under the identifier of its own user only. *)
Theorem handle_users config r d :
  ((∀ user, r ≠ Checkout user) → users (handle config r d) = users d)
  ∧ (∀ id, id ≠ User._id (request_user r) →
       users (handle config r d) !! id = users d !! id).
Proof.
  assert (users (handle config r d) = users d
          ∨ (∃ user walletMoney,
               r = Checkout user
               ∧ users (handle config r d)
                 = <[User._id user := User.set_walletMoney walletMoney user]>
                     (users d))) as Hu.
  { destruct r as [user productId quantity|user productId quantity
                  |user productId|user]; simpl.
    - left. unfold addProductToCart. run.
      destruct (product_of productId d); [|done].
      destruct (cart_of (User.email user) d); simpl; [|done].
      by destruct (existsb _ _).
    - left. unfold updateProductInCart. run.
      destruct (cart_of (User.email user) d); [|done].
      destruct (product_of productId d); [|done].
      destruct (find_ref _ _); [|done].
      by destruct (quantity >? 0).
    - left. unfold deleteProductFromCart. run.
      destruct (cart_of (User.email user) d); [|done].
      by destruct (_ =? _).
    - destruct (cart_of (User.email user) d) as [cart|] eqn:Hc;
        [|rewrite checkout_no_cart by done; by left].
      destruct (Cart.cartItems cart) as [|item items] eqn:Hitems;
        [rewrite (checkout_empty_cart _ _ _ _ Hc Hitems); by left|].
      destruct (Z.le_gt_cases (cart_total (Cart.cartItems cart))
                  (User.walletMoney user)) as [Hw|Hw].
      + right. rewrite (checkout_pays _ _ _ _ Hc); [|by rewrite Hitems|done].
        by eauto.
      + left. by rewrite (checkout_insufficient _ _ _ _ Hc);
          [|rewrite Hitems|lia]. }
  destruct Hu as [Hu|(user & walletMoney & -> & Hu)]; rewrite Hu.
  - by split.
  - simpl. split; [intros Hr; by destruct (Hr user)|].
    intros id Hid. by apply lookup_insert_ne.
Qed.

(** X5. The cart a call returns is the cart [getCartByUser] finds for the
    user right after, and reading it leaves the store alone. *)
Theorem request_cart_is_stored config r d cart :
  request_cart config r d = Some cart →
  getCartByUser (request_user r) (handle config r d)
  = (Ok cart, handle config r d).
Proof.
  intros Hcart.
  destruct (handle_cases config r d)
    as [(e & _ & Hn & _)|(c & _ & Hc & Hs & [Hr|[Hr _]])]; [congruence| |congruence].
  rewrite Hr in Hcart. injection Hcart as ->.
  unfold getCartByUser. run. rewrite <- Hc.
  by rewrite (cart_of_insert_owner _ _ _ Hs).
Qed.

(** ** The snapshots of the products *)

Lemma product_of_lookup id d p :
  product_of id d = Some p → products d !! Product._id p = Some p.
Proof.
  intros Hp. rewrite (product_of_id _ _ _ Hp).
  unfold product_of in Hp. destruct (products d !! id) as [p'|]; [|done].
  destruct (String.eqb _ _); [|done]. by injection Hp as ->.
Qed.

Lemma snapshots_of_change d r old new :
  items_change d r old new →
  snapshots_of (products d) old → snapshots_of (products d) new.
Proof.
  unfold snapshots_of.
  destruct 1 as [user productId quantity product old Hp Hin
                |user productId quantity l1 item l2 Hq
                |user productId quantity old
                |user productId l1 item l2
                |user old]; intros Hs.
  - apply Forall_app. split; [done|]. constructor; [|done]. simpl.
    by apply (product_of_lookup productId).
  - apply Forall_app in Hs as [H1 [Hitem H2]%Forall_cons].
    apply Forall_app. split; [done|]. by constructor.
  - apply Forall_forall. intros x [Hx _]%list_elem_of_In%filter_In.
    apply list_elem_of_In in Hx.
    by apply (proj1 (Forall_forall _ _) Hs).
  - apply Forall_app in Hs as [H1 [_ H2]%Forall_cons].
    by apply Forall_app.
  - constructor.
Qed.

(** X7. In every store the four operations can build, every item of every
    cart carries, unchanged, the product that the catalogue has under the
    identifier of the item: updates change quantities only. *)
Theorem reachable_snapshots config d :
  reachable config d → every_cart (snapshots_of (products d)) d.
Proof.
  induction 1 as [catalogue accounts|r d _ _ IH].
  - intros e c. simpl. by rewrite lookup_empty.
  - rewrite handle_products. intros e c.
    destruct (handle_carts config r d) as [->|(c' & -> & Hch)]; [apply IH|].
    rewrite lookup_insert. case_decide as He; [|apply IH].
    intros [= <-]. apply (snapshots_of_change _ _ _ _ Hch).
    unfold items_of, cart_of.
    destruct (carts d !! Cart.email c') as [c0|] eqn:Hc0; [|constructor].
    destruct (String.eqb _ _); [|constructor]. by apply (IH _ _ Hc0).
Qed.

(** X6 at work: the shop after two products were added. *)
Lemma reachable_unique_products_witness :
  every_cart unique_products
    (handle shop_config (AddProduct (shopper 100 "12 Park Street") "p2" 1)
       (handle shop_config (AddProduct (shopper 100 "12 Park Street") "p1" 2)
          shop_open)).
Proof.
  apply (reachable_unique_products shop_config).
  apply reachable_handle; [done|].
  apply reachable_handle; [done|].
  apply reachable_start.
Defined.

(** X7 at work: the same shop. *)
Lemma reachable_snapshots_witness :
  every_cart (snapshots_of shop_catalogue)
    (handle shop_config (AddProduct (shopper 100 "12 Park Street") "p2" 1)
       (handle shop_config (AddProduct (shopper 100 "12 Park Street") "p1" 2)
          shop_open)).
Proof.
  apply (reachable_snapshots shop_config
           (handle shop_config (AddProduct (shopper 100 "12 Park Street") "p2" 1)
              (handle shop_config
                 (AddProduct (shopper 100 "12 Park Street") "p1" 2)
                 shop_open))).
  apply reachable_handle; [done|].
  apply reachable_handle; [done|].
  apply reachable_start.
Defined.

(** ** checkout, further *)

Lemma checkout_cases config user d :
  (∃ e, checkout config user d = (Throw e, mkSession user d))
  ∨ (∃ cart,
       cart_of (User.email user) d = Some cart
       ∧ Cart.cartItems cart ≠ []
       ∧ cart_total (Cart.cartItems cart) ≤ User.walletMoney user
       ∧ checkout config user d
         = (Ok (Cart.set_cartItems [] cart),
            mkSession
              (User.set_walletMoney
                 (User.walletMoney user - cart_total (Cart.cartItems cart))
                 user)
              (put_cart (Cart.set_cartItems [] cart)
                 (put_user
                    (User.set_walletMoney
                       (User.walletMoney user
                        - cart_total (Cart.cartItems cart)) user)
                    d)))).
Proof.
  destruct (cart_of (User.email user) d) as [cart|] eqn:Hc;
    [|left; eexists; by apply checkout_no_cart].
  destruct (Cart.cartItems cart) as [|item items] eqn:Hitems;
    [left; eexists; by apply (checkout_empty_cart _ _ _ cart)|].
  destruct (Z.le_gt_cases (cart_total (Cart.cartItems cart))
              (User.walletMoney user)) as [Hw|Hw].
  - right. exists cart.
    assert (Cart.cartItems cart ≠ []) as Hne by by rewrite Hitems.
    repeat split; try done. by apply checkout_pays.
  - left. eexists. apply (checkout_insufficient _ _ _ cart); [done| |lia].
    by rewrite Hitems.
Qed.

(** X10. After a [checkout] that returned, the same user checking out again
    gets 400 "Cart is empty", and nothing changes any more. *)
Theorem checkout_again config user d cart :
  (checkout config user d).1 = Ok cart →
  checkout config (this (checkout config user d).2)
    (db (checkout config user d).2)
  = (Throw (mkApiError httpStatus.BAD_REQUEST "Cart is empty"),
     (checkout config user d).2).
Proof.
  destruct (checkout_cases config user d)
    as [(e & ->)|(c & Hc & _ & _ & ->)]; [done|].
  intros _. simpl.
  apply (checkout_empty_cart _ _ _ (Cart.set_cartItems [] c)); [|done].
  simpl. rewrite <- (cart_of_email _ _ _ Hc).
  apply (cart_of_put_cart (Cart.set_cartItems [] c)).
Qed.

(** X11. A [checkout] that returns never leaves a negative wallet in the
    user document. *)
Theorem checkout_never_overdraws config user d cart :
  (checkout config user d).1 = Ok cart →
  0 ≤ User.walletMoney (this (checkout config user d).2).
Proof.
  destruct (checkout_cases config user d)
    as [(e & ->)|(c & Hc & _ & Hw & ->)]; [done|].
  intros _. simpl. lia.
Qed.

(** X9 at work: the same call. *)
Lemma checkout_never_address_not_set_witness :
  "Wallet balance is insufficient" ≠ "Address not set".
Proof.
  apply (checkout_never_address_not_set shop_config
           (shopper 50 "12 Park Street") shop_busy
           (mkApiError httpStatus.BAD_REQUEST "Wallet balance is insufficient")).
  reflexivity.
Defined.

(** X10 at work: the wallet of 100 pays once. *)
Lemma checkout_again_witness :
  checkout shop_config (shopper 45 "12 Park Street")
    (put_cart shop_cart_empty
       (put_user (shopper 45 "12 Park Street") shop_busy))
  = (Throw (mkApiError httpStatus.BAD_REQUEST "Cart is empty"),
     mkSession (shopper 45 "12 Park Street")
       (put_cart shop_cart_empty
          (put_user (shopper 45 "12 Park Street") shop_busy))).
Proof.
  apply (checkout_again shop_config (shopper 100 "12 Park Street") shop_busy
           shop_cart_empty).
  reflexivity.
Defined.

(** X11 at work: 100 less 55. *)
Lemma checkout_never_overdraws_witness :
  0 ≤ User.walletMoney
        (this (checkout shop_config (shopper 100 "12 Park Street")
                 shop_busy).2).
Proof.
  apply (checkout_never_overdraws shop_config (shopper 100 "12 Park Street")
           shop_busy shop_cart_empty).
  reflexivity.
Defined.

(** ** How the operations compose *)

Lemma addProductToCart_appends config user productId quantity d product :
  product_of productId d = Some product →
  existsb (is_product productId) (items_of (User.email user) d) = false →
  addProductToCart config user productId quantity d
  = (Ok (Cart.mk (User.email user)
           (items_of (User.email user) d ++ [Cart.mkItem product quantity])
           (match cart_of (User.email user) d with
            | Some cart => Cart.paymentOption cart
            | None => default_payment_option config
            end)),
     put_cart
       (Cart.mk (User.email user)
          (items_of (User.email user) d ++ [Cart.mkItem product quantity])
          (match cart_of (User.email user) d with
           | Some cart => Cart.paymentOption cart
           | None => default_payment_option config
           end))
       d).
Proof.
  intros Hp Hnew. unfold addProductToCart, items_of in *. run. rewrite Hp.
  destruct (cart_of (User.email user) d) as [cart|] eqn:Hc; simpl.
  - rewrite Hnew. pose proof (cart_of_email _ _ _ Hc) as He.
    unfold Cart.set_cartItems. by rewrite He.
  - by rewrite put_cart_put_cart.
Qed.


(** X12. With a quantity of 0 or below, [updateProductInCart] leaves the
    store that [deleteProductFromCart] leaves: the two differ in what they
    return only. *)
Theorem updateProductInCart_removes_like_delete
    user productId quantity d cart :
  cart_of (User.email user) d = Some cart →
  unique_products (Cart.cartItems cart) →
  existsb (is_product productId) (Cart.cartItems cart) = true →
  is_Some (product_of productId d) →
  quantity ≤ 0 →
  (updateProductInCart user productId quantity d).1 = Ok None
  ∧ (updateProductInCart user productId quantity d).2
    = (deleteProductFromCart user productId d).2.
Proof.
  intros Hc Hu Hin Hp Hq.
  destruct (existsb_first_match _ _ Hin) as (l1 & item & l2 & Hfm).
  rewrite (updateProductInCart_remove _ _ _ _ _ Hc Hp Hin Hq).
  rewrite (deleteProductFromCart_first _ _ _ _ _ _ _ Hc Hfm). simpl.
  split; [done|].
  destruct Hfm as (Hitems & Hl1 & Hitem). rewrite Hitems in Hu |- *.
  rewrite (filter_negb_middle _ _ _ _ Hl1 Hitem); [done|].
  by eapply unique_products_rest.
Qed.

(** X13. Adding a product that the cart does not have and deleting it right
    after gives back the items the cart had, in their order. *)
Theorem addProductToCart_then_delete config user productId quantity d product :
  product_of productId d = Some product →
  existsb (is_product productId) (items_of (User.email user) d) = false →
  ∃ cart,
    deleteProductFromCart user productId
      (addProductToCart config user productId quantity d).2
    = (Ok cart, put_cart cart d)
    ∧ Cart.cartItems cart = items_of (User.email user) d.
Proof.
  intros Hp Hnew.
  rewrite (addProductToCart_appends _ _ _ _ _ _ Hp Hnew). simpl.
  eexists (Cart.mk _ _ _). split.
  - erewrite deleteProductFromCart_first.
    + by rewrite put_cart_put_cart.
    + apply (cart_of_put_cart (Cart.mk _ _ _)).
    + simpl. repeat split; [done|]. simpl.
      unfold is_product. simpl. apply String.eqb_eq.
      by apply (product_of_id _ d).
  - simpl. apply app_nil_r.
Qed.

(** X14. Of two updates of the same item with quantities above 0, the second
    decides: the result and the store are those of the second made alone. *)
Theorem updateProductInCart_last_wins user productId q1 q2 d cart :
  cart_of (User.email user) d = Some cart →
  is_Some (product_of productId d) →
  existsb (is_product productId) (Cart.cartItems cart) = true →
  0 < q1 → 0 < q2 →
  updateProductInCart user productId q2
    (updateProductInCart user productId q1 d).2
  = updateProductInCart user productId q2 d.
Proof.
  intros Hc Hp Hin Hq1 Hq2.
  destruct (existsb_first_match _ _ Hin) as (l1 & item & l2 & Hfm).
  rewrite (updateProductInCart_set _ _ _ _ _ _ _ _ Hc Hp Hfm Hq1).
  rewrite (updateProductInCart_set _ _ _ _ _ _ _ _ Hc Hp Hfm Hq2). simpl.
  destruct Hfm as (Hitems & Hl1 & Hitem).
  erewrite (updateProductInCart_set user productId q2 _
              (Cart.set_cartItems _ cart) l1
              (Cart.set_quantity q1 item) l2); [| |done| |done].
  - simpl. by rewrite put_cart_put_cart.
  - rewrite <- (cart_of_email _ _ _ Hc).
    apply (cart_of_put_cart (Cart.set_cartItems _ cart)).
  - by repeat split.
Qed.


(** X2 at work: the visitor adds a ball, the cart of the shopper stays. *)
Lemma handle_other_carts_witness :
  carts (handle shop_config (AddProduct visitor "p1" 1) shop_busy)
    !! "crio-user@gmail.com"
  = carts shop_busy !! "crio-user@gmail.com".
Proof.
  apply (handle_other_carts shop_config (AddProduct visitor "p1" 1) shop_busy
           "crio-user@gmail.com").
  discriminate.
Defined.

(** X5 at work: the bat is deleted, the cart with the balls is read. *)
Lemma request_cart_is_stored_witness :
  getCartByUser (shopper 100 "12 Park Street")
    (handle shop_config (DeleteProduct (shopper 100 "12 Park Street") "p2")
       shop_busy)
  = (Ok (Cart.mk "crio-user@gmail.com" [Cart.mkItem ball 2]
           "PAYMENT_OPTION_DEFAULT"),
     handle shop_config (DeleteProduct (shopper 100 "12 Park Street") "p2")
       shop_busy).
Proof.
  apply (request_cart_is_stored shop_config
           (DeleteProduct (shopper 100 "12 Park Street") "p2") shop_busy).
  reflexivity.
Defined.

(** X12 at work: a quantity of 0 for the ball. *)
Lemma updateProductInCart_removes_like_delete_witness :
  (updateProductInCart (shopper 100 "12 Park Street") "p1" 0 shop_busy).1
  = Ok None
  ∧ (updateProductInCart (shopper 100 "12 Park Street") "p1" 0 shop_busy).2
    = (deleteProductFromCart (shopper 100 "12 Park Street") "p1" shop_busy).2.
Proof.
  apply (updateProductInCart_removes_like_delete
           (shopper 100 "12 Park Street") "p1" 0 shop_busy shop_cart).
  - reflexivity.
  - apply shop_cart_unique.
  - reflexivity.
  - exists ball. reflexivity.
  - lia.
Defined.

(** X13 at work: the visitor adds a bat to the cart they do not have yet
    and deletes it: the cart is there, without items. *)
Lemma addProductToCart_then_delete_witness :
  ∃ cart,
    deleteProductFromCart visitor "p2"
      (addProductToCart shop_config visitor "p2" 4 shop_busy).2
    = (Ok cart, put_cart cart shop_busy)
    ∧ Cart.cartItems cart = [].
Proof.
  apply (addProductToCart_then_delete shop_config visitor "p2" 4 shop_busy
           bat); reflexivity.
Defined.

(** X14 at work: three balls, then five. *)
Lemma updateProductInCart_last_wins_witness :
  updateProductInCart (shopper 100 "12 Park Street") "p1" 5
    (updateProductInCart (shopper 100 "12 Park Street") "p1" 3 shop_busy).2
  = updateProductInCart (shopper 100 "12 Park Street") "p1" 5 shop_busy.
Proof.
  apply (updateProductInCart_last_wins (shopper 100 "12 Park Street") "p1" 3 5
           shop_busy shop_cart).
  - reflexivity.
  - exists ball. reflexivity.
  - reflexivity.
  - lia.
  - lia.
Defined.


(** * Properties of the handlers of cart.controller.js *)

Lemma existsb_filter_negb {A} (f : A → bool) (l : list A) :
  existsb f (List.filter (λ y, negb (f y)) l) = false.
Proof.
  induction l as [|y l IH]; simpl; [done|].
  destruct (f y) eqn:Hy; simpl; [done|]. by rewrite Hy.
Qed.

Section HandlerFacts.
Variable config : Config.
Variable cost : Product.t → Z.
Implicit Types (user : User.t) (productId : string) (quantity : Z) (d : Db).

Import httpStatus.

(** X16. When [updateCart] sends a response, it is 200 with the saved cart,
    in which the item of the product has the new quantity, for a quantity
    above 0; and it is 204 without a body, with no item of the product left
    in the cart, for a quantity of 0 or below. *)
Theorem updateCart_sent user productId quantity d r d' :
  cartController.updateCart user productId quantity d = (Sent r, d') →
  (0 < quantity
   ∧ status r = OK
   ∧ ∃ cart l1 item l2,
       body r = CartBody cart
       ∧ cart_of (User.email user) d' = Some cart
       ∧ items_of (User.email user) d = l1 ++ item :: l2
       ∧ Product._id (Cart.product item) = productId
       ∧ Cart.cartItems cart
         = l1 ++ Cart.mkItem (Cart.product item) quantity :: l2)
  ∨ (quantity ≤ 0
     ∧ r = mkResponse NO_CONTENT NoBody
     ∧ existsb (is_product productId) (items_of (User.email user) d') = false).
Proof.
  unfold cartController.updateCart.
  destruct (cart_of (User.email user) d) as [cart|] eqn:Hc;
    [|by rewrite updateProductInCart_no_cart].
  destruct (product_of productId d) as [product|] eqn:Hp;
    [|by rewrite (updateProductInCart_unknown_product _ _ _ _ _ Hc Hp)].
  destruct (existsb (is_product productId) (Cart.cartItems cart)) eqn:Hin;
    [|by rewrite (updateProductInCart_not_in_cart _ _ _ _ _ Hc)].
  pose proof (cart_of_email _ _ _ Hc) as He.
  destruct (Z.lt_ge_cases 0 quantity) as [Hq|Hq].
  - destruct (existsb_first_match _ _ Hin) as (l1 & item & l2 & Hfm).
    rewrite (updateProductInCart_set _ _ _ _ _ _ _ _ Hc
               (mk_is_Some _ _ Hp) Hfm Hq).
    intros [= <- <-]. left. split; [done|]. split; [done|].
    destruct Hfm as (Hitems & _ & Hitem).
    eexists _, l1, item, l2. split; [done|]. split; [|split; [|split]].
    + rewrite <- He.
      apply (cart_of_put_cart (Cart.set_cartItems _ cart)).
    + by rewrite (items_of_cart _ _ _ Hc).
    + by apply is_product_true.
    + done.
  - rewrite (updateProductInCart_remove _ _ _ _ _ Hc
               (mk_is_Some _ _ Hp) Hin Hq).
    intros [= <- <-]. right. split; [done|]. split; [done|].
    rewrite <- He.
    rewrite (items_of_put_cart (Cart.set_cartItems _ cart)). simpl.
    apply existsb_filter_negb.
Qed.

(** X20. When the handler [addProductToCart] sends a response, it is 201
    with a cart, and [getCart] for the same user right after sends 200 with
    that same cart and leaves the store alone. *)
Theorem addProductToCart_sent_then_getCart user productId quantity d r d' :
  cartController.addProductToCart config user productId quantity d
  = (Sent r, d') →
  ∃ cart,
    r = mkResponse CREATED (CartBody cart)
    ∧ cartController.getCart user d'
      = (Sent (mkResponse OK (CartBody cart)), d').
Proof.
  unfold cartController.addProductToCart, cartController.getCart.
  pose proof (handle_cases config (AddProduct user productId quantity) d)
    as Hcases. simpl in Hcases.
  destruct (addProductToCart config user productId quantity d)
    as [[cart|e] d1]; [|done].
  intros [= <- <-]. exists cart. split; [done|].
  destruct Hcases as [(e & [=] & _)|(c & _ & Hc & Hs & [[= ->]|[[=] _]])].
  simpl in Hs. unfold getCartByUser. run.
  by rewrite <- Hc, (cart_of_insert_owner _ _ _ Hs).
Qed.

(** What the handler [checkout] does, case by case. *)
Lemma controller_checkout_eq user d :
  cartController.checkout config cost user d
  = match cart_of (User.email user) d with
    | None =>
        (Rejected
           (ThrownApiError (mkApiError NOT_FOUND "User does not have a cart")),
         mkSession user d)
    | Some cart =>
        if (length (Cart.cartItems cart) =? 0)%nat then
          (Sent (mkResponse BAD_REQUEST (MessageBody "Cart is empty")),
           mkSession user d)
        else if String.eqb (User.address user) "" then
          (Sent (mkResponse BAD_REQUEST (MessageBody "Address not set")),
           mkSession user d)
        else if User.walletMoney user
                <? reduce (cartController.add_item_cost cost) 0
                     (Cart.cartItems cart) then
          (Sent
             (mkResponse BAD_REQUEST
                (MessageBody "Insufficient wallet balance")),
           mkSession user d)
        else if User.walletMoney user <? cart_total (Cart.cartItems cart) then
          (Rejected
             (ThrownApiError
                (mkApiError BAD_REQUEST "Wallet balance is insufficient")),
           mkSession user d)
        else (Sent (mkResponse NO_CONTENT NoBody), (checkout config user d).2)
    end.
Proof.
  unfold cartController.checkout, cartController.checkout_try, getCartByUser.
  run.
  destruct (cart_of (User.email user) d) as [cart|] eqn:Hc; [|done].
  simpl. unfold document_ToBoolean, string_ToBoolean. simpl.
  destruct (length (Cart.cartItems cart) =? 0)%nat eqn:Hlen; [done|].
  assert (Cart.cartItems cart ≠ []) as Hne.
  { intros Hnil. by rewrite Hnil in Hlen. }
  rewrite negb_involutive.
  destruct (String.eqb (User.address user) ""); [done|].
  destruct (User.walletMoney user
            <? reduce (cartController.add_item_cost cost) 0
                 (Cart.cartItems cart)); [done|].
  fold (checkout config user d).
  destruct (User.walletMoney user <? cart_total (Cart.cartItems cart))
    eqn:Hw.
  - by rewrite (checkout_insufficient _ _ _ _ Hc); [|done|lia].
  - by rewrite (checkout_pays _ _ _ _ Hc); [|done|lia].
Qed.

(** X17. When the handler [checkout] sends a response, it is 204 without a
    body after a [checkout] of the service that returned, whose changes are
    the ones made; or it is 400 with one of three messages, for a cart
    without items, an empty address or a wallet below the total of the
    costs, and then the user and the store are as they were. *)
Theorem controller_checkout_sent user d r s :
  cartController.checkout config cost user d = (Sent r, s) →
  (r = mkResponse NO_CONTENT NoBody
   ∧ ∃ cart, checkout config user d = (Ok cart, s))
  ∨ (status r = BAD_REQUEST
     ∧ s = mkSession user d
     ∧ ∃ cart,
         cart_of (User.email user) d = Some cart
         ∧ (body r = MessageBody "Cart is empty" ∧ Cart.cartItems cart = []
            ∨ body r = MessageBody "Address not set"
              ∧ User.address user = ""
            ∨ body r = MessageBody "Insufficient wallet balance"
              ∧ User.walletMoney user
                < reduce (cartController.add_item_cost cost) 0
                    (Cart.cartItems cart))).
Proof.
  rewrite controller_checkout_eq.
  destruct (cart_of (User.email user) d) as [cart|] eqn:Hc; [|done].
  destruct (length (Cart.cartItems cart) =? 0)%nat eqn:Hlen.
  { intros [= <- <-]. right.
    apply Nat.eqb_eq, nil_length_inv in Hlen. by eauto 10. }
  assert (Cart.cartItems cart ≠ []) as Hne.
  { intros Hnil. by rewrite Hnil in Hlen. }
  destruct (String.eqb (User.address user) "") eqn:Ha.
  { intros [= <- <-]. right. apply String.eqb_eq in Ha. by eauto 10. }
  destruct (User.walletMoney user
            <? reduce (cartController.add_item_cost cost) 0
                 (Cart.cartItems cart)) eqn:Hcost.
  { intros [= <- <-]. right. repeat split; try done.
    exists cart. split; [done|]. right. right. split; [done|]. lia. }
  destruct (User.walletMoney user <? cart_total (Cart.cartItems cart))
    eqn:Hw; [done|].
  intros [= <- <-]. left. split; [done|].
  rewrite (checkout_pays _ _ _ _ Hc); [by eauto|done|lia].
Qed.

(** X19. The address the handler [checkout] refuses is the empty one: with
    items in the cart and an empty address it answers 400 "Address not set"
    and changes nothing. *)
Theorem controller_checkout_empty_address user d cart :
  cart_of (User.email user) d = Some cart →
  Cart.cartItems cart ≠ [] →
  User.address user = "" →
  cartController.checkout config cost user d
  = (Sent (mkResponse BAD_REQUEST (MessageBody "Address not set")),
     mkSession user d).
Proof.
  intros Hc Hitems Ha. rewrite controller_checkout_eq, Hc, Ha.
  by destruct (Cart.cartItems cart).
Qed.
End HandlerFacts.

(** X16 at work: three balls instead of two. *)
Lemma updateCart_sent_witness :
  (0 < 3
   ∧ status (mkResponse httpStatus.OK (CartBody shop_cart_three))
     = httpStatus.OK
   ∧ ∃ cart l1 item l2,
       body (mkResponse httpStatus.OK (CartBody shop_cart_three))
       = CartBody cart
       ∧ cart_of "crio-user@gmail.com" (put_cart shop_cart_three shop_busy)
         = Some cart
       ∧ items_of "crio-user@gmail.com" shop_busy = l1 ++ item :: l2
       ∧ Product._id (Cart.product item) = "p1"
       ∧ Cart.cartItems cart = l1 ++ Cart.mkItem (Cart.product item) 3 :: l2)
  ∨ (3 ≤ 0
     ∧ mkResponse httpStatus.OK (CartBody shop_cart_three)
       = mkResponse httpStatus.NO_CONTENT NoBody
     ∧ existsb (is_product "p1")
         (items_of "crio-user@gmail.com" (put_cart shop_cart_three shop_busy))
       = false).
Proof.
  apply (updateCart_sent (shopper 100 "12 Park Street") "p1" 3 shop_busy
           (mkResponse httpStatus.OK (CartBody shop_cart_three))
           (put_cart shop_cart_three shop_busy)).
  reflexivity.
Defined.

(** X17 at work: the wallet of 100 pays the cart of 55, costs as prices. *)
Lemma controller_checkout_sent_witness :
  (mkResponse httpStatus.NO_CONTENT NoBody
   = mkResponse httpStatus.NO_CONTENT NoBody
   ∧ ∃ cart,
       checkout shop_config (shopper 100 "12 Park Street") shop_busy
       = (Ok cart,
          (checkout shop_config (shopper 100 "12 Park Street") shop_busy).2))
  ∨ (status (mkResponse httpStatus.NO_CONTENT NoBody)
     = httpStatus.BAD_REQUEST
     ∧ (checkout shop_config (shopper 100 "12 Park Street") shop_busy).2
       = mkSession (shopper 100 "12 Park Street") shop_busy
     ∧ ∃ cart,
         cart_of "crio-user@gmail.com" shop_busy = Some cart
         ∧ (body (mkResponse httpStatus.NO_CONTENT NoBody)
            = MessageBody "Cart is empty"
            ∧ Cart.cartItems cart = []
            ∨ body (mkResponse httpStatus.NO_CONTENT NoBody)
              = MessageBody "Address not set"
              ∧ "12 Park Street" = ""
            ∨ body (mkResponse httpStatus.NO_CONTENT NoBody)
              = MessageBody "Insufficient wallet balance"
              ∧ 100
                < reduce (cartController.add_item_cost Product.price) 0
                    (Cart.cartItems cart))).
Proof.
  apply (controller_checkout_sent shop_config Product.price
           (shopper 100 "12 Park Street") shop_busy
           (mkResponse httpStatus.NO_CONTENT NoBody)
           (checkout shop_config (shopper 100 "12 Park Street") shop_busy).2).
  reflexivity.
Defined.

(** X19 at work: the shopper without an address. *)
Lemma controller_checkout_empty_address_witness :
  cartController.checkout shop_config Product.price (shopper 100 "") shop_busy
  = (Sent (mkResponse httpStatus.BAD_REQUEST (MessageBody "Address not set")),
     mkSession (shopper 100 "") shop_busy).
Proof.
  apply (controller_checkout_empty_address shop_config Product.price
           (shopper 100 "") shop_busy shop_cart).
  - reflexivity.
  - discriminate.
  - reflexivity.
Defined.

(** X20 at work: the visitor adds four bats and reads the cart. *)
Lemma addProductToCart_sent_then_getCart_witness :
  ∃ cart,
    mkResponse httpStatus.CREATED (CartBody visitor_cart)
    = mkResponse httpStatus.CREATED (CartBody cart)
    ∧ cartController.getCart visitor (put_cart visitor_cart shop_busy)
      = (Sent (mkResponse httpStatus.OK (CartBody cart)),
         put_cart visitor_cart shop_busy).
Proof.
  apply (addProductToCart_sent_then_getCart shop_config visitor "p2" 4
           shop_busy
           (mkResponse httpStatus.CREATED (CartBody visitor_cart))
           (put_cart visitor_cart shop_busy)).
  reflexivity.
Defined.

(** * Properties of the password validator of user.model.js *)

Lemma matches_append class before after :
  userSchema.matches class (String.append before after)
  = userSchema.matches class before || userSchema.matches class after.
Proof.
  induction before as [|c before IH]; simpl; [done|].
  rewrite IH. by rewrite orb_assoc.
Qed.

Lemma not_digit_and_letter c :
  userSchema.is_digit c && userSchema.is_letter c = false.
Proof.
  unfold userSchema.is_digit, userSchema.is_letter.
  destruct (48 <=? _)%nat eqn:H1, (_ <=? 57)%nat eqn:H2,
    (97 <=? _)%nat eqn:H3, (65 <=? _)%nat eqn:H4; simpl; try done;
    apply Nat.leb_le in H2;
    try (apply Nat.leb_le in H3); try (apply Nat.leb_le in H4); lia.
Qed.

Lemma password_validate_None value :
  userSchema.password_validate value = None
  ↔ userSchema.matches userSchema.is_digit value = true
    ∧ userSchema.matches userSchema.is_letter value = true.
Proof.
  unfold userSchema.password_validate.
  destruct (userSchema.matches userSchema.is_digit value),
    (userSchema.matches userSchema.is_letter value); simpl;
    split; try done; by intros [? ?].
Qed.

(** X21. A password that the validator lets through has two characters or
    more, and it is still let through with any text put before and after
    it. *)
Theorem password_validate_accepted value :
  userSchema.password_validate value = None →
  (2 ≤ String.length value)%nat
  ∧ ∀ before after,
      userSchema.password_validate
        (String.append before (String.append value after))
      = None.
Proof.
  intros [Hd Hl]%password_validate_None. split.
  - destruct value as [|c [|c' value]]; simpl in *; [done| |lia].
    rewrite orb_false_r in Hd, Hl.
    pose proof (not_digit_and_letter c) as Hc. by rewrite Hd, Hl in Hc.
  - intros before after. apply password_validate_None.
    rewrite !matches_append, Hd, Hl. by rewrite !orb_true_r.
Qed.

(** X21 at work: a letter and a digit. *)
Lemma password_validate_accepted_witness :
  (2 ≤ String.length "password1")%nat
  ∧ ∀ before after,
      userSchema.password_validate
        (String.append before (String.append "password1" after))
      = None.
Proof.
  apply (password_validate_accepted "password1"). reflexivity.
Defined.

(** * The service with the numbers and the store as they are *)

(** ** binary64 on integers *)


Lemma round64_nonneg n : 0 ≤ n → 0 ≤ round64 n.
Proof.
  intros Hn. unfold round64.
  destruct (Z.abs n <? 2 ^ 53) eqn:Hlt; [done|].
  assert (0 < n) as Hpos by lia.
  rewrite (Z.sgn_pos n Hpos), Z.mul_1_l.
  apply Z.mul_nonneg_nonneg; [|by apply Z.pow_nonneg].
  assert (0 ≤ Z.abs n / 2 ^ (Z.log2 (Z.abs n) - 52)) as Hq.
  { apply Z.div_pos; [lia|]. apply Z.pow_pos_nonneg; [lia|].
    assert (53 ≤ Z.log2 (Z.abs n)); [|lia].
    apply Z.log2_le_pow2; lia. }
  destruct (_ || _); lia.
Qed.

(** [round64] against the primitive binary64 numbers, at the first integers
    that are not binary64 numbers, at ties on both sides and at some
    others. *)
Lemma round64_as_primitive :
  Forall (λ n, binary64_to_Z (binary64_of n) = round64 n)
    [0; 7; -5; 55; 2 ^ 53; 2 ^ 53 + 1; 2 ^ 53 + 2; 2 ^ 53 + 3; 2 ^ 54 + 2;
     2 ^ 54 + 5; 2 ^ 54 + 6; - (2 ^ 53 + 1); - (2 ^ 53 + 3); 2 ^ 60 + 128;
     2 ^ 60 + 129; 2 ^ 60 + 384; 2 ^ 62 + 1000].
Proof. repeat constructor. Qed.





Arguments Faulty.cart_total : simpl never.

(** Unfolds the monad of the store that can fail. *)
Ltac frun :=
  cbv beta iota zeta delta
    [Faulty.bind Faulty.ret Faulty.throw Faulty.gets Faulty.modify
     Faulty.Cart_findOne Faulty.Product_findById Faulty.Cart_create
     Faulty.Cart_save Faulty.User_save Faulty.on_store Faulty.user_get
     Faulty.user_set Faulty.user_save Faulty.Promise_all Faulty.read
     Faulty.write Faulty.next_reply Faulty.api Faulty.served Faulty.this
     Faulty.store Faulty.data Faulty.replies Faulty.settles Faulty.applied].


(** ** What a thrown [ApiError] says about the store *)

Lemma faulty_checkout_api_error_inv N config user s e s' :
  Faulty.checkout N config user s = (Faulty.Failed (ThrownApiError e), s') →
  Faulty.this s' = user
  ∧ Faulty.data (Faulty.store s') = Faulty.data s
  ∧ (e = mkApiError httpStatus.NOT_FOUND "User does not have a cart"
     ∧ cart_of (User.email user) (Faulty.data s) = None
     ∨ ∃ cart,
         cart_of (User.email user) (Faulty.data s) = Some cart
         ∧ (e = mkApiError httpStatus.BAD_REQUEST "Cart is empty"
            ∧ Cart.cartItems cart = []
            ∨ e = mkApiError httpStatus.BAD_REQUEST
                    "Wallet balance is insufficient"
              ∧ User.walletMoney user
                < Faulty.cart_total N (Cart.cartItems cart))).
Proof.
  unfold Faulty.checkout, Faulty.checkout_async. frun.
  change (js_not (hasSetNonDefaultAddress config user)) with false.
  unfold parseFloat. frun. destruct s as [d rs]. frun.
  intros H.
  repeat (case_match; simplify_eq/=); try done.
  all: split; [done|]; split; [done|].
  all: first
    [ left; by split
    | right; eexists; split; [done|];
      first
        [ left; split; [done|]; apply nil_length_inv; by apply Nat.eqb_eq
        | right; split; [done|]; by apply Z.gtb_lt ] ].
Qed.

Lemma faulty_checkout_error_inv N config user s text s' :
  Faulty.checkout N config user s = (Faulty.Failed (ThrownError text), s') →
  Faulty.Rejects text ∈ Faulty.settles <$> Faulty.replies s.
Proof.
  unfold Faulty.checkout, Faulty.checkout_async. frun.
  change (js_not (hasSetNonDefaultAddress config user)) with false.
  unfold parseFloat. frun. destruct s as [d rs]. frun.
  intros H.
  repeat (case_match; simplify_eq/=); try done; set_solver.
Qed.

Lemma faulty_addProductToCart_inv config user productId quantity s e s' :
  Faulty.addProductToCart config user productId quantity s
  = (Faulty.Failed (ThrownApiError e), s') →
  statusCode e = httpStatus.INTERNAL_SERVER_ERROR
  ∨ Faulty.data s' = Faulty.data s ∧ statusCode e = httpStatus.BAD_REQUEST.
Proof.
  unfold Faulty.addProductToCart. frun. destruct s as [d rs]. frun.
  intros H.
  repeat (case_match; simplify_eq/=); try done; by eauto.
Qed.

Lemma faulty_updateProductInCart_inv user productId quantity s e s' :
  Faulty.updateProductInCart user productId quantity s
  = (Faulty.Failed (ThrownApiError e), s') →
  Faulty.data s' = Faulty.data s ∧ statusCode e = httpStatus.BAD_REQUEST.
Proof.
  unfold Faulty.updateProductInCart. frun. destruct s as [d rs]. frun.
  intros H.
  repeat (case_match; simplify_eq/=); try done; by eauto.
Qed.

Lemma faulty_deleteProductFromCart_inv user productId s e s' :
  Faulty.deleteProductFromCart user productId s
  = (Faulty.Failed (ThrownApiError e), s') →
  Faulty.data s' = Faulty.data s ∧ statusCode e = httpStatus.BAD_REQUEST.
Proof.
  unfold Faulty.deleteProductFromCart. frun. destruct s as [d rs]. frun.
  intros H.
  repeat (case_match; simplify_eq/=); try done; by eauto.
Qed.

(** X1. On a store that can fail in any way, a call of one of the four
    operations that throws an [ApiError] with a status other than 500 has
    written nothing: the user document and the collections are as they
    were, and the status is 400, or 404 for [checkout]. *)
Theorem faulty_api_error_keeps_data N config r s e s' :
  Faulty.serve N config r s = (Some (ThrownApiError e), s') →
  statusCode e = httpStatus.INTERNAL_SERVER_ERROR
  ∨ Faulty.this s' = request_user r
    ∧ Faulty.data (Faulty.store s') = Faulty.data s
    ∧ (statusCode e = httpStatus.BAD_REQUEST
       ∨ statusCode e = httpStatus.NOT_FOUND ∧ r = Checkout (request_user r)).
Proof.
  destruct r as [user productId quantity|user productId quantity
                |user productId|user]; simpl.
  - destruct (Faulty.addProductToCart _ _ _ _ _) as [[cart|error] s1] eqn:H;
      [done|].
    intros [= -> <-].
    apply faulty_addProductToCart_inv in H as [H|[H1 H2]]; by eauto.
  - destruct (Faulty.updateProductInCart _ _ _ _) as [[cart|error] s1] eqn:H;
      [done|].
    intros [= -> <-].
    apply faulty_updateProductInCart_inv in H as [H1 H2]. by eauto.
  - destruct (Faulty.deleteProductFromCart _ _ _) as [[cart|error] s1] eqn:H;
      [done|].
    intros [= -> <-].
    apply faulty_deleteProductFromCart_inv in H as [H1 H2]. by eauto.
  - destruct (Faulty.checkout _ _ _ _) as [[cart|error] s1] eqn:H; [done|].
    intros [= -> <-].
    apply faulty_checkout_api_error_inv in H
      as (H1 & H2 & [[-> _]|(cart & _ & [[-> _]|[-> _]])]);
      right; by eauto.
Qed.

(** X8. On a store that can fail in any way, a [checkout] that throws does
    so in one of two ways: with one of its own [ApiError]s, for a user
    without a cart (404), a cart without items or a wallet below the total
    (400), and then the user document and the collections are as they were;
    or with the rejection of a call of the store. *)
Theorem faulty_checkout_throws N config user s error s' :
  Faulty.checkout N config user s = (Faulty.Failed error, s') →
  (∃ e,
     error = ThrownApiError e
     ∧ Faulty.this s' = user
     ∧ Faulty.data (Faulty.store s') = Faulty.data s
     ∧ (e = mkApiError httpStatus.NOT_FOUND "User does not have a cart"
        ∧ cart_of (User.email user) (Faulty.data s) = None
        ∨ ∃ cart,
            cart_of (User.email user) (Faulty.data s) = Some cart
            ∧ (e = mkApiError httpStatus.BAD_REQUEST "Cart is empty"
               ∧ Cart.cartItems cart = []
               ∨ e = mkApiError httpStatus.BAD_REQUEST
                       "Wallet balance is insufficient"
                 ∧ User.walletMoney user
                   < Faulty.cart_total N (Cart.cartItems cart))))
  ∨ (∃ text,
       error = ThrownError text
       ∧ Faulty.Rejects text ∈ Faulty.settles <$> Faulty.replies s).
Proof.
  destruct error as [e|text]; intros H.
  - left. exists e. split; [done|].
    by apply (faulty_checkout_api_error_inv N config).
  - right. exists text. split; [done|].
    by apply (faulty_checkout_error_inv N config user s text s').
Qed.

(** A save that the store rejects, after the wallet was written: [checkout]
    throws, the wallet is debited in the document and in the collection, and
    the cart has its items still. *)
Lemma faulty_checkout_rejected_save :
  let after :=
    Faulty.checkout binary64 shop_config (shopper 100 "12 Park Street")
      (Faulty.mkStore shop_busy
         [Faulty.served; Faulty.served;
          Faulty.mkReply false (Faulty.Rejects "connection lost")]) in
  after.1 = Faulty.Failed (ThrownError "connection lost")
  ∧ User.walletMoney (Faulty.this after.2) = 45
  ∧ (User.walletMoney <$> users (Faulty.data (Faulty.store after.2)) !! "u1")
    = Some 45
  ∧ length (items_of "crio-user@gmail.com" (Faulty.data (Faulty.store after.2)))
    = 2%nat.
Proof. repeat split. Qed.

(** X18. On a store that can fail in any way, the handler [checkout] throws
    on, instead of answering, in these cases only: the 404 of a user without
    a cart; the 400 "Wallet balance is insufficient" of the service, which
    needs the total of the costs within the wallet and the total of the
    prices above it; and the rejection of a call of the store. In the first
    two the user document and the collections are as they were. *)
Theorem faulty_controller_checkout_rejected N config cost user s error s' :
  Faulty.controller_checkout N config cost user s = (Rejected error, s') →
  (∃ e,
     error = ThrownApiError e
     ∧ Faulty.this s' = user
     ∧ Faulty.data (Faulty.store s') = Faulty.data s
     ∧ (e = mkApiError httpStatus.NOT_FOUND "User does not have a cart"
        ∧ cart_of (User.email user) (Faulty.data s) = None
        ∨ e = mkApiError httpStatus.BAD_REQUEST
                "Wallet balance is insufficient"
          ∧ ∃ cart,
              cart_of (User.email user) (Faulty.data s) = Some cart
              ∧ reduce (Faulty.controller_add_item_cost N cost) 0
                  (Cart.cartItems cart)
                ≤ User.walletMoney user
              ∧ User.walletMoney user
                < Faulty.cart_total N (Cart.cartItems cart)))
  ∨ (∃ text,
       error = ThrownError text
       ∧ Faulty.Rejects text ∈ Faulty.settles <$> Faulty.replies s).
Proof.
  unfold Faulty.controller_checkout, Faulty.controller_checkout_try,
    Faulty.controller_checkout_catch, Faulty.getCartByUser.
  frun. destruct s as [d rs]. frun.
  unfold document_ToBoolean, string_ToBoolean. intros H.
  repeat (case_match; simplify_eq/=); try done.
  all: try (right; eexists; split; [done|]; set_solver).
  all: try (left; eexists; split; [done|]; split; [done|]; split; [done|];
            left; by split).
  all: match goal with
       | Hs : Faulty.checkout_async _ _ (Faulty.mkSession ?u ?st) = _ |- _ =>
           fold (Faulty.checkout N config u st) in Hs;
           destruct error as [e|text];
           [ apply faulty_checkout_api_error_inv in Hs
               as (? & ? & [[-> ?]|(cart & ? & [[-> ?]|[-> ?]])]);
             simplify_eq/=; try done
           | apply faulty_checkout_error_inv in Hs ]
       end.
  all: try (right; eexists; split; [done|];
            first [done | by apply list_elem_of_further]).
  all: left; eexists; split; [done|]; split; [done|]; split; [done|]; right;
    split; [done|]; eexists; split; [done|]; split; [|done];
    by apply Z.ltb_ge.
Qed.

(** ** The store that serves every call *)


(** ** The total and the wallet in binary64 *)





(** The same computation in primitive binary64: the wallet of 2^53 + 4, less
    the total added up from 0, is 4. *)
Lemma checkout_total_primitive :
  binary64_to_Z
    (PrimFloat.sub (binary64_of (2 ^ 53 + 4))
       (PrimFloat.add
          (PrimFloat.add (binary64_of 0)
             (PrimFloat.mul (binary64_of (2 ^ 53)) (binary64_of 1)))
          (PrimFloat.mul (binary64_of 1) (binary64_of 1))))
  = 4.
Proof. reflexivity. Qed.

(** Prices that are not integers are rounded from the first operation on:
    in primitive binary64, three times a tenth is above three tenths. *)
Lemma binary64_three_tenths :
  PrimFloat.ltb
    (PrimFloat.div (binary64_of 3) (binary64_of 10))
    (PrimFloat.mul (PrimFloat.div (binary64_of 1) (binary64_of 10))
       (binary64_of 3))
  = true.
Proof. reflexivity. Qed.

(** X23. On a store that can fail in any way and with the binary64
    operators, a [checkout] that returns never leaves a negative wallet in
    the user document. *)
Theorem faulty_checkout_never_overdraws config user s cart s' :
  Faulty.checkout binary64 config user s = (Faulty.Fulfilled cart, s') →
  0 ≤ User.walletMoney (Faulty.this s').
Proof.
  unfold Faulty.checkout, Faulty.checkout_async. frun.
  change (js_not (hasSetNonDefaultAddress config user)) with false.
  unfold parseFloat. frun. destruct s as [d rs]. frun.
  intros H.
  repeat (case_match; simplify_eq/=); try done.
  all: apply round64_nonneg.
  all: match goal with
       | Hw : (_ >? _) = false |- _ =>
           rewrite Z.gtb_ltb in Hw; apply Z.ltb_ge in Hw; lia
       end.
Qed.

(** X1 at work: a product the shop does not have. *)
Lemma faulty_api_error_keeps_data_witness :
  statusCode
    (mkApiError httpStatus.BAD_REQUEST "Product doesn't exist in database")
  = httpStatus.INTERNAL_SERVER_ERROR
  ∨ shopper 100 "12 Park Street"
    = request_user (AddProduct (shopper 100 "12 Park Street") "p9" 1)
    ∧ shop_open = shop_open
    ∧ (statusCode
         (mkApiError httpStatus.BAD_REQUEST
            "Product doesn't exist in database")
       = httpStatus.BAD_REQUEST
       ∨ statusCode
           (mkApiError httpStatus.BAD_REQUEST
              "Product doesn't exist in database")
         = httpStatus.NOT_FOUND
         ∧ AddProduct (shopper 100 "12 Park Street") "p9" 1
           = Checkout
               (request_user
                  (AddProduct (shopper 100 "12 Park Street") "p9" 1))).
Proof.
  apply (faulty_api_error_keeps_data binary64 shop_config
           (AddProduct (shopper 100 "12 Park Street") "p9" 1)
           (Faulty.mkStore shop_open [Faulty.served; Faulty.served])
           (mkApiError httpStatus.BAD_REQUEST
              "Product doesn't exist in database")
           (Faulty.mkSession (shopper 100 "12 Park Street")
              (Faulty.mkStore shop_open []))).
  reflexivity.
Defined.

(** X8 at work: the save of the cart is rejected. *)
Lemma faulty_checkout_throws_witness :
  let s :=
    Faulty.mkStore shop_busy
      [Faulty.served; Faulty.served;
       Faulty.mkReply false (Faulty.Rejects "connection lost")] in
  let s' :=
    (Faulty.checkout binary64 shop_config (shopper 100 "12 Park Street") s).2
  in
  (∃ e,
     ThrownError "connection lost" = ThrownApiError e
     ∧ Faulty.this s' = shopper 100 "12 Park Street"
     ∧ Faulty.data (Faulty.store s') = Faulty.data s
     ∧ (e = mkApiError httpStatus.NOT_FOUND "User does not have a cart"
        ∧ cart_of "crio-user@gmail.com" (Faulty.data s) = None
        ∨ ∃ cart,
            cart_of "crio-user@gmail.com" (Faulty.data s) = Some cart
            ∧ (e = mkApiError httpStatus.BAD_REQUEST "Cart is empty"
               ∧ Cart.cartItems cart = []
               ∨ e = mkApiError httpStatus.BAD_REQUEST
                       "Wallet balance is insufficient"
                 ∧ 100 < Faulty.cart_total binary64 (Cart.cartItems cart))))
  ∨ (∃ text,
       ThrownError "connection lost" = ThrownError text
       ∧ Faulty.Rejects text ∈ Faulty.settles <$> Faulty.replies s).
Proof.
  apply (faulty_checkout_throws binary64 shop_config
           (shopper 100 "12 Park Street")
           (Faulty.mkStore shop_busy
              [Faulty.served; Faulty.served;
               Faulty.mkReply false (Faulty.Rejects "connection lost")])
           (ThrownError "connection lost")).
  reflexivity.
Defined.

(** X18 at work: the visitor has no cart. *)
Lemma faulty_controller_checkout_rejected_witness :
  let error :=
    ThrownApiError
      (mkApiError httpStatus.NOT_FOUND "User does not have a cart") in
  let s := Faulty.mkStore shop_busy [] in
  let s' := Faulty.mkSession visitor s in
  (∃ e,
     error = ThrownApiError e
     ∧ Faulty.this s' = visitor
     ∧ Faulty.data (Faulty.store s') = Faulty.data s
     ∧ (e = mkApiError httpStatus.NOT_FOUND "User does not have a cart"
        ∧ cart_of "visitor@gmail.com" (Faulty.data s) = None
        ∨ e = mkApiError httpStatus.BAD_REQUEST
                "Wallet balance is insufficient"
          ∧ ∃ cart,
              cart_of "visitor@gmail.com" (Faulty.data s) = Some cart
              ∧ reduce (Faulty.controller_add_item_cost binary64 Product.price)
                  0 (Cart.cartItems cart)
                ≤ 10
              ∧ 10 < Faulty.cart_total binary64 (Cart.cartItems cart)))
  ∨ (∃ text,
       error = ThrownError text
       ∧ Faulty.Rejects text ∈ Faulty.settles <$> Faulty.replies s).
Proof.
  apply (faulty_controller_checkout_rejected binary64 shop_config
           Product.price visitor (Faulty.mkStore shop_busy [])
           (ThrownApiError
              (mkApiError httpStatus.NOT_FOUND "User does not have a cart"))
           (Faulty.mkSession visitor (Faulty.mkStore shop_busy []))).
  reflexivity.
Defined.

(** X23 at work: the wallet of 100 pays the cart of 55. *)
Lemma faulty_checkout_never_overdraws_witness :
  0 ≤ User.walletMoney
        (Faulty.this
           (Faulty.checkout binary64 shop_config
              (shopper 100 "12 Park Street")
              (Faulty.mkStore shop_busy [])).2).
Proof.
  apply (faulty_checkout_never_overdraws shop_config
           (shopper 100 "12 Park Street") (Faulty.mkStore shop_busy [])
           shop_cart_empty).
  reflexivity.
Defined.
